(** * TaskFlow: the REST core of the task manager

    A shallow embedding of the Express handlers of [routes/auth.js] and
    [routes/tasks.js] and of the Mongoose models [models/User.js] and
    [models/Task.js].  The document store is a list of documents in insertion
    order, every handler is a function from the store (and the clock) to the
    new store and the JSON response.

    The calls into Mongoose, the MongoDB driver, Express, jsonwebtoken and
    bcrypt are modelled with the behaviour these libraries document: query and
    update casting, validators, hooks and timestamps of the schemas, the order
    in which a router tries its routes, the checks of [jwt.verify].  Where
    versions differ the model follows Mongoose 5 with the driver and the BSON
    library it brings, on MongoDB 4.4: the versions of the connection options
    of [server.js] and of the README.

    Conventions.  A JavaScript string is a [string] that holds its UTF-8
    bytes; [JS.length] is its length in UTF-16 code units, [JS.trim] strips
    the white space of ECMAScript, and [JS.toLowerCase] is spelled out for the
    texts of ASCII characters, the case mapping of the others being a
    parameter.  A Date is its epoch value in milliseconds.  A number is an
    integer that a double holds, [NaN] or an infinity.  A property of a
    request body or of a query string is absent or a value of the type the
    handler expects (a text, an integer, a boolean, an array of texts): [null]
    and values of other types are not in the model. *)

From Stdlib Require Import ZArith NArith List String Ascii Bool Lia Sorted.
From Stdlib Require Import Uint63 PrimFloat SpecFloat FloatOps.
Import ListNotations.
Open Scope string_scope.
Open Scope Z_scope.
Open Scope list_scope.

(** ** JavaScript primitives used by the handlers *)
Module JS.

(** *** Numbers *)

(** The result of [parseInt] and of the arithmetic done on it: an integer,
    [NaN], or an infinity with its sign.  The two zeros are one. *)
Inductive number := NaN | Int (z : Z) | Infinity (negative : bool).

(** [JSON.stringify] of a number: [NaN] and the infinities become [null]. *)
Definition json_number := option Z.

Definition toJSON (n : number) : json_number :=
  match n with Int z => Some z | _ => None end.

(** The double nearest to an integer, ties going to the even significand of
    53 bits. *)
Definition nearest (z : Z) : Z :=
  let a := Z.abs z in
  if a <=? 2 ^ 53 then z
  else
    let e := Z.log2 a - 52 in
    let q := a / 2 ^ e in
    let r := a mod 2 ^ e in
    let up := (2 ^ (e - 1) <? r) || ((r =? 2 ^ (e - 1)) && Z.odd q) in
    Z.sgn z * ((if up then q + 1 else q) * 2 ^ e).

(** An integer as a number: rounded, and an infinity from [2 ^ 1024] on. *)
Definition ofZ (z : Z) : number :=
  let d := nearest z in
  if 2 ^ 1024 <=? Z.abs d then Infinity (z <? 0) else Int d.

Definition sub (a b : number) : number :=
  match a, b with
  | Int x, Int y => ofZ (x - y)
  | Infinity s, Int _ => Infinity s
  | Int _, Infinity s => Infinity (negb s)
  | Infinity s, Infinity t => if Bool.eqb s t then NaN else Infinity s
  | _, _ => NaN
  end.

Definition mul (a b : number) : number :=
  match a, b with
  | Int x, Int y => ofZ (x * y)
  | Infinity s, Int y | Int y, Infinity s =>
      if y =? 0 then NaN else Infinity (xorb s (y <? 0))
  | Infinity s, Infinity t => Infinity (xorb s t)
  | _, _ => NaN
  end.

(** [Math.ceil(n / d)] as it is serialised, for an integer [n]: a division
    by zero gives an infinity or [NaN], which JSON renders as [null], a
    division by an infinity gives zero.  The quotient is taken exactly, as it
    comes out in floating point for an [n] below [2 ^ 53]. *)
Definition ceil_div (n : Z) (d : number) : json_number :=
  match d with
  | NaN => None
  | Int 0 => None
  | Int d => Some (- ((- n) / d))
  | Infinity _ => Some 0
  end.

(** [Math.round(x)] of a double: the integer nearest to it, a half going
    up. *)
Definition round (x : float) : Z :=
  match Prim2SF x with
  | S754_finite s m e =>
      let v := if s then Z.neg m else Z.pos m in
      if 0 <=? e then v * 2 ^ e
      else (v + 2 ^ (- e - 1)) / 2 ^ (- e)
  | _ => 0
  end.

(** [Math.round((c / t) * 100)] for two counts, in the arithmetic of
    doubles. *)
Definition percent (c t : Z) : Z :=
  round (PrimFloat.mul (PrimFloat.div (PrimFloat.of_uint63 (Uint63.of_Z c))
                                      (PrimFloat.of_uint63 (Uint63.of_Z t)))
                       (PrimFloat.of_uint63 (Uint63.of_Z 100))).

(** *** Characters and strings *)

Definition code (c : ascii) : N := N_of_ascii c.

Definition between (lo hi : N) (c : ascii) : bool :=
  (N.leb lo (code c) && N.leb (code c) hi)%bool.

Definition isDigit (c : ascii) : bool := between 48 57 c.
Definition isUpper (c : ascii) : bool := between 65 90 c.
Definition isLower (c : ascii) : bool := between 97 122 c.

(** The class [\w] of a regular expression: [A-Za-z0-9_]. *)
Definition isWord (c : ascii) : bool :=
  (isDigit c || isUpper c || isLower c || N.eqb (code c) 95)%bool.

(** [0-9a-fA-F] *)
Definition isHex (c : ascii) : bool :=
  (isDigit c || between 65 70 c || between 97 102 c)%bool.

(** Whether every byte of a text is in a class. *)
Fixpoint everyChar (p : ascii -> bool) (s : string) : bool :=
  match s with
  | EmptyString => true
  | String c r => p c && everyChar p r
  end.

(** A text of ASCII characters: every byte is below 128. *)
Definition isAscii (s : string) : bool := everyChar (fun c => N.ltb (code c) 128) s.

(** The UTF-16 code units a character brings, counted at its first byte: none
    at a continuation byte, two at the first byte of a character of four
    bytes (a surrogate pair), one otherwise. *)
Definition units (c : ascii) : nat :=
  if between 128 191 c then 0%nat
  else if N.leb 240 (code c) then 2%nat
  else 1%nat.

(** [s.length] *)
Fixpoint length (s : string) : nat :=
  match s with
  | EmptyString => 0%nat
  | String c r => (units c + length r)%nat
  end.

(** The UTF-16 code units of a text: a character of one, two or three
    bytes is one unit, a character of four bytes the two units of a surrogate
    pair. *)
Fixpoint codeUnits (s : string) : list N :=
  match s with
  | EmptyString => []
  | String a r1 =>
      if N.ltb (code a) 192 then code a :: codeUnits r1
      else
        match r1 with
        | EmptyString => [code a]
        | String b r2 =>
            if N.ltb (code a) 224
            then ((code a - 192) * 64 + (code b - 128))%N :: codeUnits r2
            else
              match r2 with
              | EmptyString => [code a; code b]
              | String c r3 =>
                  if N.ltb (code a) 240
                  then ((code a - 224) * 4096 + (code b - 128) * 64 + (code c - 128))%N
                       :: codeUnits r3
                  else
                    match r3 with
                    | EmptyString => [code a; code b; code c]
                    | String d r4 =>
                        let v := ((code a - 240) * 262144 + (code b - 128) * 4096
                                  + (code c - 128) * 64 + (code d - 128) - 65536)%N in
                        (55296 + N.div v 1024)%N :: (56320 + N.modulo v 1024)%N
                        :: codeUnits r4
                    end
              end
        end
  end.

(** The UTF-8 bytes of a code point. *)
Definition utf8 (n : N) : string :=
  let byte (k : N) := ascii_of_N k in
  let tail (k : N) := byte (128 + N.modulo k 64)%N in
  if N.ltb n 128 then String (byte n) ""
  else if N.ltb n 2048 then String (byte (192 + N.div n 64)%N) (String (tail n) "")
  else if N.ltb n 65536
  then String (byte (224 + N.div n 4096)%N) (String (tail (N.div n 64)) (String (tail n) ""))
  else String (byte (240 + N.div n 262144)%N)
         (String (tail (N.div n 4096)) (String (tail (N.div n 64)) (String (tail n) ""))).

(** The code points of [WhiteSpace] and [LineTerminator]: TAB, LF, VT, FF,
    CR, SP, NBSP, U+1680, U+2000 to U+200A, LS, PS, U+202F, U+205F, U+3000
    and the byte order mark. *)
Definition whiteSpace : list N :=
  [9; 10; 11; 12; 13; 32; 160; 5760;
   8192; 8193; 8194; 8195; 8196; 8197; 8198; 8199; 8200; 8201; 8202;
   8232; 8233; 8239; 8287; 12288; 65279]%N.

(** White space of one, two and three bytes. *)
Definition isSpace1 (a : ascii) : bool :=
  (between 9 13 a || N.eqb (code a) 32)%bool.

Definition isSpace2 (a b : ascii) : bool :=
  (N.eqb (code a) 194 && N.eqb (code b) 160)%bool.

Definition isSpace3 (a b c : ascii) : bool :=
  (N.eqb (code a) 225 && N.eqb (code b) 154 && N.eqb (code c) 128
   || N.eqb (code a) 226 && N.eqb (code b) 128
      && (between 128 138 c || between 168 169 c || N.eqb (code c) 175)
   || N.eqb (code a) 226 && N.eqb (code b) 129 && N.eqb (code c) 159
   || N.eqb (code a) 227 && N.eqb (code b) 128 && N.eqb (code c) 128
   || N.eqb (code a) 239 && N.eqb (code b) 187 && N.eqb (code c) 191)%bool.

(** Whether a text is one character of white space. *)
Definition isSpace (s : string) : bool :=
  match s with
  | String a EmptyString => isSpace1 a
  | String a (String b EmptyString) => isSpace2 a b
  | String a (String b (String c EmptyString)) => isSpace3 a b c
  | _ => false
  end.

(** Whether a text starts with a character of white space. *)
Definition startsWithSpace (s : string) : bool :=
  match s with
  | String a r1 =>
      isSpace1 a ||
      match r1 with
      | String b r2 =>
          isSpace2 a b ||
          match r2 with
          | String c _ => isSpace3 a b c
          | EmptyString => false
          end
      | EmptyString => false
      end
  | EmptyString => false
  end.

Fixpoint trimStart (s : string) : string :=
  match s with
  | EmptyString => EmptyString
  | String a r1 =>
      if isSpace1 a then trimStart r1
      else
        match r1 with
        | EmptyString => s
        | String b r2 =>
            if isSpace2 a b then trimStart r2
            else
              match r2 with
              | EmptyString => s
              | String c r3 => if isSpace3 a b c then trimStart r3 else s
              end
        end
  end.

Fixpoint trimEnd (s : string) : string :=
  match s with
  | EmptyString => EmptyString
  | String a r =>
      let kept := String a (trimEnd r) in
      if isSpace kept then EmptyString else kept
  end.

(** [s.trim()] *)
Definition trim (s : string) : string := trimEnd (trimStart s).

Definition lowerChar (c : ascii) : ascii :=
  if isUpper c then ascii_of_N (code c + 32)%N else c.

(** The letters A to Z in lower case, every other byte as it is. *)
Fixpoint lowerASCII (s : string) : string :=
  match s with
  | EmptyString => EmptyString
  | String c r => String (lowerChar c) (lowerASCII r)
  end.

Section Unicode.

(** [s.toLowerCase()] for a text that has a character outside ASCII: the
    case mapping of Unicode. *)
Variable unicodeLower : string -> string.

(** [s.toLowerCase()] *)
Definition toLowerCase (s : string) : string :=
  if isAscii s then lowerASCII s else unicodeLower s.

End Unicode.

(** Truthiness of a string: every string but the empty one. *)
Definition truthy (s : string) : bool :=
  match s with EmptyString => false | _ => true end.

(** [v || d] on an optional string property. *)
Definition orElse (v : option string) (d : string) : string :=
  match v with
  | Some s => if truthy s then s else d
  | None => d
  end.

Definition digitValue (c : ascii) : option Z :=
  if isDigit c then Some (Z.of_N (code c) - 48)
  else if between 97 102 c then Some (Z.of_N (code c) - 87)
  else if between 65 70 c then Some (Z.of_N (code c) - 55)
  else None.

(** The longest prefix of digits of the radix, read from the left; [None]
    when it is empty. *)
Fixpoint digits (radix : Z) (s : string) (acc : option Z) : option Z :=
  match s with
  | EmptyString => acc
  | String c r =>
      match digitValue c with
      | Some d =>
          if d <? radix
          then digits radix r (Some (match acc with Some a => a | None => 0 end * radix + d))
          else acc
      | None => acc
      end
  end.

Definition unsignedInt (s : string) : option Z :=
  match s with
  | String "0" (String "x" r) | String "0" (String "X" r) => digits 16 r None
  | _ => digits 10 s None
  end.

(** [parseInt(s)] without a radix: leading white space, a sign, an optional
    [0x] prefix, then digits up to the first character that is none; the
    integer read is rounded to a double. *)
Definition parseInt (s : string) : number :=
  let body := trimStart s in
  let '(neg, rest) :=
    match body with
    | String "-" r => (true, r)
    | String "+" r => (false, r)
    | _ => (false, body)
    end in
  match unsignedInt rest with
  | Some n => ofZ (if neg then - n else n)
  | None => NaN
  end.

End JS.

(** ** Regular expressions anchored at both ends ([/^...$/.test(s)])

    The expressions of the source have no flag: their classes are classes of
    ASCII characters, which no byte of another character is in. *)
Module RegExp.

Inductive re :=
| Never
| Empty
| Class (p : ascii -> bool)
| Seq (a b : re)
| Alt (a b : re)
| Star (a : re).

Fixpoint nullable (r : re) : bool :=
  match r with
  | Never => false
  | Empty => true
  | Class _ => false
  | Seq a b => nullable a && nullable b
  | Alt a b => nullable a || nullable b
  | Star _ => true
  end.

(** The expression matching the rest of a word of [r] that starts with [c]. *)
Fixpoint after (c : ascii) (r : re) : re :=
  match r with
  | Never => Never
  | Empty => Never
  | Class p => if p c then Empty else Never
  | Seq a b =>
      if nullable a then Alt (Seq (after c a) b) (after c b)
      else Seq (after c a) b
  | Alt a b => Alt (after c a) (after c b)
  | Star a => Seq (after c a) (Star a)
  end.

Fixpoint test (r : re) (s : string) : bool :=
  match s with
  | EmptyString => nullable r
  | String c s' => test (after c r) s'
  end.

Definition Plus (a : re) : re := Seq a (Star a).
Definition Opt (a : re) : re := Alt Empty a.
Definition Char (c : ascii) : re := Class (Ascii.eqb c).

Fixpoint Times (n : nat) (a : re) : re :=
  match n with
  | O => Empty
  | S k => Seq a (Times k a)
  end.

Definition word : re := Class JS.isWord.

(** [[.-]] *)
Definition dotOrDash (c : ascii) : bool := Ascii.eqb c "." || Ascii.eqb c "-".

(** [\w+([.-]?\w+)*] *)
Definition dotted : re :=
  Seq (Plus word) (Star (Seq (Opt (Class dotOrDash)) (Plus word))).

(** [/^\w+([.-]?\w+)*@\w+([.-]?\w+)*(\.\w{2,3})+$/] *)
Definition emailRegex : re :=
  Seq dotted
      (Seq (Char "@")
           (Seq dotted
                (Plus (Seq (Char ".") (Seq word (Seq word (Opt word))))))).

(** [/^[0-9a-fA-F]{24}$/] *)
Definition objectIdRegex : re := Times 24 (Class JS.isHex).

End RegExp.

(** ** HTTP responses: the envelope [{error, message, data}] with a status *)
Module Http.

(** A message is a literal of the source, or the comma-joined messages of a
    Mongoose [ValidationError], kept as the schema paths that failed. *)
Inductive message :=
| Text (s : string)
| ValidationMessages (paths : list string).

Record envelope (D : Type) := Envelope {
  status : Z;
  error : bool;
  message_of : message;
  data : option D
}.
Arguments Envelope {D} _ _ _ _.
Arguments status {D} _.
Arguments error {D} _.
Arguments message_of {D} _.
Arguments data {D} _.

Definition fail {D} (code : Z) (msg : string) : envelope D :=
  Envelope code true (Text msg) None.

Definition ok {D} (code : Z) (msg : string) (d : D) : envelope D :=
  Envelope code false (Text msg) (Some d).

End Http.

(** ** The [jsonwebtoken] calls of the routers

    A token is the compact form [header.payload.signature]; it is kept as the
    claims and the signature it carries, or as text that does not parse.  The
    keyed hash of HS256 is a parameter, [hmac]. *)
Module jwt.

(** The claims: [id] and [email] as [generateToken] writes them, [iat], and
    the two claims of time a token may carry, [nbf] and [exp]. *)
Record payload := Payload {
  id : string;
  email : string;
  iat : Z;
  nbf : option Z;
  exp : option Z
}.

Inductive token :=
| Malformed (text : string)
| Compact (claims : payload) (signature : string).

Inductive error := JsonWebTokenError | NotBeforeError | TokenExpiredError.

Section Keyed.
Variable hmac : string -> payload -> string.

(** [jwt.sign({id, email}, secret, {expiresIn})] at clock [now] (ms);
    [expiresIn] in seconds. *)
Definition sign (uid mail : string) (secret : string) (expiresIn : Z) (now : Z) : token :=
  let issued := now / 1000 in
  let claims := Payload uid mail issued None (Some (issued + expiresIn)) in
  Compact claims (hmac secret claims).

(** [jwt.verify(token, secret)] at clock [now]: the signature is checked
    first, then [nbf], then [exp]. *)
Definition verify (t : token) (secret : string) (now : Z) : payload + error :=
  match t with
  | Malformed _ => inr JsonWebTokenError
  | Compact claims signature =>
      if negb (String.eqb signature (hmac secret claims)) then inr JsonWebTokenError
      else if match nbf claims with Some t => now / 1000 <? t | None => false end
      then inr NotBeforeError
      else if match exp claims with Some t => t <=? now / 1000 | None => false end
      then inr TokenExpiredError
      else inl claims
  end.

End Keyed.
End jwt.

(** ** The casts of Mongoose *)
Module Mongoose.

Definition hexDigit (n : N) : ascii :=
  ascii_of_N (if N.ltb n 10 then 48 + n else 87 + n)%N.

(** The low byte of each code unit as two hexadecimal digits. *)
Fixpoint toHex (l : list N) : string :=
  match l with
  | [] => EmptyString
  | n :: r =>
      String (hexDigit (N.div (N.modulo n 256) 16))
        (String (hexDigit (N.modulo n 16)) (toHex r))
  end.

(** [new ObjectId(text)], as the hexadecimal text of the id: a text of 24
    hexadecimal digits is the id it spells; a text whose [length] is 12 is
    taken for the 12 bytes of an id, which the BSON library writes as the low
    bytes of its code units; any other text throws. *)
Definition ObjectId (s : string) : option string :=
  if RegExp.test RegExp.objectIdRegex s then Some (JS.lowerASCII s)
  else if Nat.eqb (JS.length s) 12 then Some (toHex (JS.codeUnits s))
  else None.

End Mongoose.

Definition isSome {A} (o : option A) : bool :=
  match o with Some _ => true | None => false end.

(** ** models/User.js *)
Module User.

Record doc := Doc {
  _id : string;
  email : string;
  password : string;
  name : string;
  subscription : string;
  isActive : bool;
  createdAt : Z;
  updatedAt : Z
}.

Definition collection := list doc.

(** What [toJSON] leaves of a user: the password is deleted. *)
Record json := Json {
  j_id : string;
  j_email : string;
  j_name : string;
  j_subscription : string;
  j_isActive : bool;
  j_createdAt : Z;
  j_updatedAt : Z
}.

Definition toJSON (u : doc) : json :=
  Json (_id u) (email u) (name u) (subscription u) (isActive u) (createdAt u) (updatedAt u).

Inductive saveError :=
| ValidationError (paths : list string)
| DuplicateKey.

Section Setters.

Variable unicodeLower : string -> string.

(** The setters of the [email] path ([lowercase], [trim]); Mongoose runs them
    on a value that is stored and on a value that is queried, the one
    declared last first. *)
Definition castEmail (e : string) : string :=
  JS.toLowerCase unicodeLower (JS.trim e).

(** [User.findOne({ email })] *)
Definition findOne (users : collection) (e : string) : option doc :=
  find (fun u => String.eqb (email u) (castEmail e)) users.

(** The validators of the schema, as the paths that fail. *)
Definition validate (mail pass nm : string) : list string :=
  (if RegExp.test RegExp.emailRegex mail then [] else ["email"]) ++
  (if (6 <=? Z.of_nat (JS.length pass)) then [] else ["password"]) ++
  (if JS.truthy nm && (Z.of_nat (JS.length nm) <=? 50) then [] else ["name"]).

(** [new User({name, email, password}).save()]: setters, validation, the
    [pre('save')] hook that hashes the password with a fresh salt, defaults
    and timestamps, then the insertion under the unique index of [email]. *)
Definition create (bcrypt_hash : string -> string -> string)
    (users : collection) (newId salt : string) (nm mail pass : string) (now : Z)
    : (doc * collection) + saveError :=
  let mail' := castEmail mail in
  let nm' := JS.trim nm in
  match validate mail' pass nm' with
  | [] =>
      if existsb (fun u => String.eqb (email u) mail') users then inr DuplicateKey
      else
        let u := Doc newId mail' (bcrypt_hash pass salt) nm' "free" true now now in
        inl (u, users ++ [u])
  | paths => inr (ValidationError paths)
  end.

End Setters.

(** [User.findById(id)], for an id that casts. *)
Definition findById (users : collection) (uid : string) : option doc :=
  match Mongoose.ObjectId uid with
  | Some h => find (fun u => String.eqb (_id u) h) users
  | None => None
  end.

(** [user.updatedAt = new Date(); user.save()] on a user read from the
    collection. *)
Definition touch (users : collection) (u : doc) (now : Z) : collection :=
  map (fun x =>
         if String.eqb (_id x) (_id u)
         then Doc (_id x) (email x) (password x) (name x) (subscription x) (isActive x)
                  (createdAt x) now
         else x) users.

End User.

(** ** models/Task.js *)
Module Task.

Record doc := Doc {
  _id : string;
  userId : string;
  title : string;
  description : string;
  category : string;
  priority : Z;
  dueDate : option Z;
  completed : bool;
  completedAt : option Z;
  tags : list string;
  createdAt : Z;
  updatedAt : Z
}.

Definition collection := list doc.

(** A [Date] built from client input: [None] is [Invalid Date]. *)
Definition date := option Z.

Definition set_completedAt (v : option Z) (d : doc) : doc :=
  Doc (_id d) (userId d) (title d) (description d) (category d) (priority d)
      (dueDate d) (completed d) v (tags d) (createdAt d) (updatedAt d).

(** The cast of the paths [_id] and [userId]; the documents hold the ids
    they refer to as the hexadecimal text of the id. *)
Definition ObjectId (s : string) : option string := Mongoose.ObjectId s.

(** *** Schema validators *)

Definition categories : list string :=
  ["업무"; "학습"; "개인"; "건강"; "쇼핑"; "기타"].

Definition maxlength (n : Z) (s : string) : bool := Z.of_nat (JS.length s) <=? n.

Definition check (path : string) (valid : bool) : list string :=
  if valid then [] else [path].

Definition valid_title (s : string) : bool := JS.truthy s && maxlength 100 s.
Definition valid_description (s : string) : bool := maxlength 500 s.
Definition valid_category (s : string) : bool := existsb (String.eqb s) categories.
Definition valid_priority (p : Z) : bool := (1 <=? p) && (p <=? 5).
(** [validator: function(value) { return !value || value >= new Date(); }] *)
Definition valid_dueDate (now : Z) (v : option Z) : bool :=
  match v with Some d => now <=? d | None => true end.
Definition valid_tags (l : list string) : bool := forallb (maxlength 20) l.

(** *** The [pre('save')] hook

    [modified] is [this.isModified('completed')]. *)
Definition preSave (modified : bool) (now : Z) (d : doc) : doc :=
  let d1 :=
    if modified && completed d && negb (isSome (completedAt d))
    then set_completedAt (Some now) d else d in
  if modified && negb (completed d1) && isSome (completedAt d1)
  then set_completedAt None d1 else d1.

(** *** [new Task({...}).save()]

    The constructor casts its argument (an owner that is no id and an
    [Invalid Date] do not cast, which validation reports), the schema gives
    [completed] its default and leaves [completedAt] unset; [completed] is not
    among the paths the constructor was given, so [isModified('completed')] is
    false in the hook. *)
Definition create (tasks : collection) (newId : string)
    (owner ttl descr categ : string) (prio : Z) (due : option date) (tgs : list string)
    (now : Z) : (doc * collection) + list string :=
  let ttl' := JS.trim ttl in
  let descr' := JS.trim descr in
  let tgs' := map JS.trim tgs in
  let errors :=
    check "userId" (isSome (ObjectId owner)) ++
    check "title" (valid_title ttl') ++
    check "description" (valid_description descr') ++
    check "category" (valid_category categ) ++
    check "priority" (valid_priority prio) ++
    check "dueDate" (match due with
                     | Some None => false
                     | Some (Some d) => valid_dueDate now (Some d)
                     | None => true
                     end) ++
    check "tags" (valid_tags tgs') in
  match errors, ObjectId owner with
  | [], Some owner' =>
      let due' := match due with Some d => d | None => None end in
      let d := preSave false now
                 (Doc newId owner' ttl' descr' categ prio due' false None tgs' now now) in
      inl (d, tasks ++ [d])
  | paths, _ => inr paths
  end.

(** *** Query filters *)

Record range := Range {
  gte : option date;
  lt : option date;
  lte : option date
}.

Record filter := Filter {
  q_id : option string;
  q_userId : option string;
  q_completed : option bool;
  q_category : option string;
  q_priority : option JS.number;
  q_dueDate : option range
}.

(** [{ _id: taskId, userId: owner }] *)
Definition byIdAndOwner (taskId owner : string) : filter :=
  Filter (Some taskId) (Some owner) None None None None.

(** [{ userId: owner, completed: true }] *)
Definition completedOf (owner : string) : filter :=
  Filter None (Some owner) (Some true) None None None.

Definition castableDate (b : option date) : bool :=
  match b with Some None => false | _ => true end.

Definition holds {A} (c : option A) (p : A -> bool) : bool :=
  match c with Some v => p v | None => true end.

(** Whether every value of the filter casts to the type of its path; a text
    that is no id, a [NaN] priority and an [Invalid Date] do not. *)
Definition castable (q : filter) : bool :=
  holds (q_id q) (fun i => isSome (ObjectId i)) &&
  holds (q_userId q) (fun u => isSome (ObjectId u)) &&
  match q_priority q with Some JS.NaN => false | _ => true end &&
  match q_dueDate q with
  | Some r => castableDate (gte r) && castableDate (lt r) && castableDate (lte r)
  | None => true
  end.

(** Whether a text casts to the id a document holds. *)
Definition sameId (text stored : string) : bool :=
  match ObjectId text with
  | Some h => String.eqb h stored
  | None => false
  end.

Definition bound (b : option date) (p : Z -> bool) : bool :=
  match b with Some (Some v) => p v | Some None => false | None => true end.

Definition inRange (r : range) (v : option Z) : bool :=
  match v with
  | Some d =>
      bound (gte r) (fun b => b <=? d) && bound (lt r) (fun b => d <? b) &&
      bound (lte r) (fun b => d <=? b)
  | None => false
  end.

Definition matches (q : filter) (d : doc) : bool :=
  holds (q_id q) (fun i => sameId i (_id d)) &&
  holds (q_userId q) (fun u => sameId u (userId d)) &&
  holds (q_completed q) (fun c => Bool.eqb c (completed d)) &&
  holds (q_category q) (fun c => String.eqb c (category d)) &&
  holds (q_priority q) (fun p => match p with JS.Int z => z =? priority d | _ => false end) &&
  holds (q_dueDate q) (fun r => inRange r (dueDate d)).

(** *** Sorting

    The value a document is ordered by, with the order of BSON types: an
    empty array, null or missing, numbers, strings, ObjectIds, booleans,
    dates.  An array is ordered by its least element going up and by its
    greatest going down. *)
Inductive bson :=
| BEmpty
| BNull
| BNum (z : Z)
| BStr (s : string)
| BOid (s : string)
| BBool (b : bool)
| BDate (z : Z).

Definition rank (v : bson) : Z :=
  match v with
  | BEmpty => 0 | BNull => 1 | BNum _ => 2 | BStr _ => 3
  | BOid _ => 4 | BBool _ => 5 | BDate _ => 6
  end.

Definition compare_bson (a b : bson) : comparison :=
  match a, b with
  | BNum x, BNum y => x ?= y
  | BStr x, BStr y => String.compare x y
  | BOid x, BOid y => String.compare x y
  | BBool x, BBool y => Z.b2z x ?= Z.b2z y
  | BDate x, BDate y => x ?= y
  | _, _ => rank a ?= rank b
  end.

Definition extreme (dir : Z) (l : list string) : bson :=
  match l with
  | [] => BEmpty
  | x :: r =>
      BStr (fold_left (fun best s =>
                         match String.compare s best with
                         | Lt => if dir <? 0 then best else s
                         | Gt => if dir <? 0 then s else best
                         | Eq => best
                         end) r x)
  end.

Definition dateKey (v : option Z) : bson :=
  match v with Some d => BDate d | None => BNull end.

Definition key (field : string) (dir : Z) (d : doc) : bson :=
  if String.eqb field "_id" then BOid (_id d)
  else if String.eqb field "userId" then BOid (userId d)
  else if String.eqb field "title" then BStr (title d)
  else if String.eqb field "description" then BStr (description d)
  else if String.eqb field "category" then BStr (category d)
  else if String.eqb field "priority" then BNum (priority d)
  else if String.eqb field "dueDate" then dateKey (dueDate d)
  else if String.eqb field "completed" then BBool (completed d)
  else if String.eqb field "completedAt" then dateKey (completedAt d)
  else if String.eqb field "tags" then extreme dir (tags d)
  else if String.eqb field "createdAt" then BDate (createdAt d)
  else if String.eqb field "updatedAt" then BDate (updatedAt d)
  else BNull.

(** A sort specification: the keys of the object given to [sort], in order,
    each with its direction (1 or -1). *)
Definition sortSpec := list (string * Z).

(** [spec[field] = dir] *)
Fixpoint setSort (spec : sortSpec) (field : string) (dir : Z) : sortSpec :=
  match spec with
  | [] => [(field, dir)]
  | (f, e) :: r =>
      if String.eqb f field then (f, dir) :: r else (f, e) :: setSort r field dir
  end.

Fixpoint compareBy (spec : sortSpec) (a b : doc) : comparison :=
  match spec with
  | [] => Eq
  | (f, dir) :: r =>
      match compare_bson (key f dir a) (key f dir b) with
      | Eq => compareBy r a b
      | c => if dir <? 0 then CompOpp c else c
      end
  end.

Fixpoint insert (spec : sortSpec) (x : doc) (l : list doc) : list doc :=
  match l with
  | [] => [x]
  | y :: r =>
      match compareBy spec x y with
      | Gt => y :: insert spec x r
      | _ => x :: l
      end
  end.

(** A stable sort: documents that compare equal stay in insertion order. *)
Definition sort (spec : sortSpec) (l : list doc) : list doc :=
  fold_right (insert spec) [] l.


(** [taskSchema.pre(/^find/, function() { this.sort({ createdAt: -1 }) })]:
    it runs when a [find], [findOne], [findOneAndUpdate] or
    [findOneAndDelete] is executed, after the caller's own [sort]. *)
Definition preFind (spec : sortSpec) : sortSpec := setSort spec "createdAt" (-1).

(** The documents a query selects, in the order it sees them. *)
Definition select (tasks : collection) (q : filter) (spec : sortSpec) : list doc :=
  sort (preFind spec) (List.filter (matches q) tasks).


(** What the driver sends for [skip] and for [limit]: a falsy value (0,
    [NaN]) goes as 0; [None] for a number the server does not take, an
    infinity or an integer out of the range of 64 bits. *)
Definition sent (n : JS.number) : option Z :=
  match n with
  | JS.NaN => Some 0
  | JS.Int z => if Z.abs z <? 2 ^ 63 then Some z else None
  | JS.Infinity _ => None
  end.

(** [.skip(s).limit(l)].  The server refuses a negative skip, reads the
    limit 0 as no limit and is sent the absolute value of a negative
    limit. *)
Definition window (skip limit : JS.number) (l : list doc) : option (list doc) :=
  match sent skip, sent limit with
  | Some s, Some n =>
      if s <? 0 then None
      else
        let rest := skipn (Z.to_nat s) l in
        Some (if n =? 0 then rest else firstn (Z.to_nat (Z.abs n)) rest)
  | _, _ => None
  end.

(** A field path the server sorts by: its components, between dots, are not
    empty and do not start with a dollar, and it has no null character, which
    no key of a BSON document may have. *)
Fixpoint validPath (atStart : bool) (path : string) : bool :=
  match path with
  | EmptyString => negb atStart
  | String c rest =>
      if Ascii.eqb c Ascii.zero then false
      else if Ascii.eqb c "." then negb atStart && validPath true rest
      else if Ascii.eqb c "$" then negb atStart && validPath false rest
      else validPath false rest
  end.

Definition sortable (spec : sortSpec) : bool :=
  forallb (fun entry => validPath true (fst entry)) spec.

(** [Task.find(q).sort(spec).skip(s).limit(l)]; [None] when it throws. *)
Definition find (tasks : collection) (q : filter) (spec : sortSpec)
    (skip limit : JS.number) : option (list doc) :=
  if castable q && sortable spec then window skip limit (select tasks q spec) else None.

(** [Task.countDocuments(q)]; [None] when it throws. *)
Definition countDocuments (tasks : collection) (q : filter) : option Z :=
  if castable q then Some (Z.of_nat (List.length (List.filter (matches q) tasks))) else None.

(** [Task.findOne(q)]; [None] when it throws. *)
Definition findOne (tasks : collection) (q : filter) : option (option doc) :=
  if castable q then Some (hd_error (select tasks q [])) else None.

(** *** Writes through a query *)

(** The [updateFields] object of [PUT /:id]: a key is absent ([None]) or
    present with its value; the value of [dueDate] may be [undefined]. *)
Record update := Update {
  u_title : option string;
  u_description : option string;
  u_category : option string;
  u_priority : option Z;
  u_dueDate : option (option date);
  u_completed : option bool;
  u_tags : option (list string)
}.

Inductive updateError :=
| CastError
| ValidationError (paths : list string).

Definition castsUpdate (u : update) : bool :=
  match u_dueDate u with Some (Some None) => false | _ => true end.

(** The update validators ([runValidators: true]) of the paths that are set. *)
Definition updateErrors (now : Z) (u : update) : list string :=
  check "title" (holds (u_title u) (fun s => valid_title (JS.trim s))) ++
  check "description" (holds (u_description u) (fun s => valid_description (JS.trim s))) ++
  check "category" (holds (u_category u) valid_category) ++
  check "priority" (holds (u_priority u) valid_priority) ++
  check "dueDate" (holds (u_dueDate u)
                     (fun v => match v with Some d => valid_dueDate now d | None => true end)) ++
  check "tags" (holds (u_tags u) (fun l => valid_tags (map JS.trim l))).

Definition pick {A} (v : option A) (old : A) : A :=
  match v with Some x => x | None => old end.

(** The document after [$set: updateFields]: a key set to [undefined] is
    stored as null, [timestamps] moves [updatedAt], and no [save] hook runs. *)
Definition applyUpdate (u : update) (now : Z) (d : doc) : doc :=
  Doc (_id d) (userId d)
      (pick (option_map JS.trim (u_title u)) (title d))
      (pick (option_map JS.trim (u_description u)) (description d))
      (pick (u_category u) (category d))
      (pick (u_priority u) (priority d))
      (match u_dueDate u with
       | Some (Some v) => v
       | Some None => None
       | None => dueDate d
       end)
      (pick (u_completed u) (completed d))
      (completedAt d)
      (pick (option_map (map JS.trim) (u_tags u)) (tags d))
      (createdAt d)
      now.

(** The first document with the [_id] of [old] becomes [new]. *)
Fixpoint replaceOne (old new : doc) (l : collection) : collection :=
  match l with
  | [] => []
  | x :: r =>
      if String.eqb (_id x) (_id old) then new :: r else x :: replaceOne old new r
  end.

Fixpoint removeOne (old : doc) (l : collection) : collection :=
  match l with
  | [] => []
  | x :: r => if String.eqb (_id x) (_id old) then r else x :: removeOne old r
  end.

(** [Task.findOneAndUpdate(q, updateFields, { new: true, runValidators: true })]:
    the query is cast, then the update is cast and validated, before the
    collection is touched. *)
Definition findOneAndUpdate (tasks : collection) (q : filter) (u : update) (now : Z)
    : (option doc * collection) + updateError :=
  if castable q && castsUpdate u then
    match updateErrors now u with
    | [] =>
        match hd_error (select tasks q []) with
        | Some d => let d' := applyUpdate u now d in inl (Some d', replaceOne d d' tasks)
        | None => inl (None, tasks)
        end
    | paths => inr (ValidationError paths)
    end
  else inr CastError.

(** [Task.findOneAndDelete(q)]; [None] when it throws. *)
Definition findOneAndDelete (tasks : collection) (q : filter)
    : option (option doc * collection) :=
  if castable q then
    Some match hd_error (select tasks q []) with
         | Some d => (Some d, removeOne d tasks)
         | None => (None, tasks)
         end
  else None.

(** [Task.deleteMany(q)]: [deletedCount] and what is left; [None] when it
    throws. *)
Definition deleteMany (tasks : collection) (q : filter) : option (Z * collection) :=
  if castable q then
    Some (Z.of_nat (List.length (List.filter (matches q) tasks)),
          List.filter (fun d => negb (matches q d)) tasks)
  else None.

(** *** Virtuals *)

(** [daysLeft]: [null] for a task without a due date or completed, else
    [Math.ceil((dueDate - today) / (1000 * 60 * 60 * 24))]; [today] is the
    [new Date()] of the getter.  The quotient is taken exactly, as it comes
    out for two instants less than [2 ^ 53] milliseconds apart. *)
Definition daysLeft (today : Z) (d : doc) : JS.json_number :=
  match dueDate d with
  | Some due =>
      if completed d then None
      else JS.ceil_div (due - today) (JS.Int (1000 * 60 * 60 * 24))
  | None => None
  end.

(** *** Statics *)

Record stats := Stats {
  total : Z;
  completedCount : Z;
  pending : Z;
  completionRate : Z
}.

(** [{ $group: { _id: '$completed', count: { $sum: 1 } } }]: one group for
    each value of [completed] that a document has, with the number of these
    documents. *)
Definition groupByCompleted (l : list doc) : list (bool * Z) :=
  let count (b : bool) :=
    Z.of_nat (List.length (List.filter (fun d => Bool.eqb (completed d) b) l)) in
  List.filter (fun g => 0 <? snd g) [(true, count true); (false, count false)].

(** The body of [stats.forEach]. *)
Definition tally (result : stats) (stat : bool * Z) : stats :=
  let '(value, count) := stat in
  Stats (total result + count)
        (if value then count else completedCount result)
        (if value then pending result else count)
        (completionRate result).

(** [getUserStats]: [mongoose.Types.ObjectId(userId)] throws for a text that
    is no id ([None]); else the documents of the user are grouped by
    [completed], the groups are tallied and the rate is computed. *)
Definition getUserStats (tasks : collection) (owner : string) : option stats :=
  match ObjectId owner with
  | Some owner' =>
      let mine := List.filter (fun d => String.eqb owner' (userId d)) tasks in
      let result := fold_left tally (groupByCompleted mine) (Stats 0 0 0 0) in
      Some (Stats (total result) (completedCount result) (pending result)
                  (if 0 <? total result
                   then JS.percent (completedCount result) (total result)
                   else 0))
  | None => None
  end.

(** [getUpcomingTasks]; [future] is today moved by [days] calendar days. *)
Definition getUpcomingTasks (tasks : collection) (owner : string) (today future : Z)
    : option (list doc) :=
  find tasks
    (Filter None (Some owner) (Some false) None None
       (Some (Range (Some (Some today)) None (Some (Some future)))))
    [("dueDate", 1)] (JS.Int 0) (JS.Int 0).

End Task.
(** ** The routers

    What the handlers take from their environment is a variable of the
    section: the secret of the process, the keyed hash behind the tokens,
    bcrypt, the parsing of a date, the calendar, and the case mapping of the
    characters outside ASCII. *)
Section Routes.

Set Default Proof Using "Type".

(** [process.env.JWT_SECRET] *)
Variable JWT_SECRET : option string.
Variable hmac : string -> jwt.payload -> string.
(** [bcrypt.hash(password, salt)] and [bcrypt.compare(candidate, hash)] *)
Variable bcrypt_hash : string -> string -> string.
Variable bcrypt_compare : string -> string -> bool.
(** [new Date(text)] *)
Variable Date_parse : string -> Task.date.
(** [d.setDate(d.getDate() + n)] *)
Variable addDays : Z -> Z -> Z.
(** [s.toLowerCase()] for a text that has a character outside ASCII *)
Variable unicodeLower : string -> string.

(** [process.env.JWT_SECRET || 'your-secret-key'] *)
Definition secret : string := JS.orElse JWT_SECRET "your-secret-key".

Definition present (v : option string) : bool :=
  match v with Some s => JS.truthy s | None => false end.

Definition text (v : option string) : string :=
  match v with Some s => s | None => "" end.

(** *** routes/auth.js *)

(** [expiresIn: '7d'], in seconds *)
Definition sevenDays : Z := 7 * 24 * 60 * 60.

Definition generateToken (user : User.doc) (now : Z) : jwt.token :=
  jwt.sign hmac (User._id user) (User.email user) secret sevenDays now.

Record credentials := Credentials {
  c_name : option string;
  c_email : option string;
  c_password : option string
}.

Definition session : Type := User.json * jwt.token.

Definition invalidCredentials : Http.envelope session :=
  Http.fail 401 "이메일 또는 비밀번호가 올바르지 않습니다.".

Definition accountDeactivated : Http.envelope session :=
  Http.fail 401 "비활성화된 계정입니다. 관리자에게 문의해주세요.".

Definition duplicateEmail : Http.envelope session :=
  Http.fail 409 "이미 가입된 이메일 주소입니다.".

Definition serverError {D} : Http.envelope D :=
  Http.fail 500 "서버 내부 오류가 발생했습니다.".

(** [router.post('/register')]; [newId] and [salt] are the fresh values the
    driver and bcrypt draw. *)
Definition register (users : User.collection) (newId salt : string)
    (body : credentials) (now : Z) : User.collection * Http.envelope session :=
  if negb (present (c_name body) && present (c_email body) && present (c_password body))
  then (users, Http.fail 400 "이름, 이메일, 비밀번호는 필수 항목입니다.")
  else
    let name := text (c_name body) in
    let email := text (c_email body) in
    let password := text (c_password body) in
    if negb (RegExp.test RegExp.emailRegex email)
    then (users, Http.fail 400 "유효한 이메일 주소를 입력해주세요.")
    else if Z.of_nat (JS.length password) <? 6
    then (users, Http.fail 400 "비밀번호는 최소 6자 이상이어야 합니다.")
    else
      match User.findOne unicodeLower users email with
      | Some _ => (users, duplicateEmail)
      | None =>
          match User.create unicodeLower bcrypt_hash users newId salt
                  (JS.trim name) (JS.trim (JS.toLowerCase unicodeLower email))
                  password now with
          | inl (newUser, users') =>
              (users', Http.ok 201 "회원가입이 성공적으로 완료되었습니다."
                         (User.toJSON newUser, generateToken newUser now))
          | inr (User.ValidationError paths) =>
              (users, Http.Envelope 400 true (Http.ValidationMessages paths) None)
          | inr User.DuplicateKey => (users, serverError)
          end
      end.

(** [router.post('/login')] *)
Definition login (users : User.collection) (body : credentials) (now : Z)
    : User.collection * Http.envelope session :=
  if negb (present (c_email body) && present (c_password body))
  then (users, Http.fail 400 "이메일과 비밀번호는 필수 항목입니다.")
  else
    let email := text (c_email body) in
    let password := text (c_password body) in
    match User.findOne unicodeLower users
            (JS.trim (JS.toLowerCase unicodeLower email)) with
    | None => (users, invalidCredentials)
    | Some user =>
        if negb (User.isActive user) then (users, accountDeactivated)
        else if negb (bcrypt_compare password (User.password user))
        then (users, invalidCredentials)
        else
          let token := generateToken user now in
          let users' := User.touch users user now in
          let user' := User.Doc (User._id user) (User.email user) (User.password user)
                         (User.name user) (User.subscription user) (User.isActive user)
                         (User.createdAt user) now in
          (users', Http.ok 200 "로그인에 성공했습니다." (User.toJSON user', token))
    end.

(** The [Authorization] header: ['Bearer '] followed by a token, or any other
    text. *)
Inductive authorization :=
| Bearer (token : jwt.token)
| Other (text : string).

(** [router.get('/me')]: the token is verified and the user read again; an
    id that does not cast and an error of [jwt.verify] that has neither of the
    two names go to the last branch of the [catch]. *)
Definition me (users : User.collection) (authHeader : option authorization) (now : Z)
    : Http.envelope User.json :=
  match authHeader with
  | Some (Bearer token) =>
      match jwt.verify hmac token secret now with
      | inl decoded =>
          if negb (isSome (Mongoose.ObjectId (jwt.id decoded))) then serverError
          else
            match User.findById users (jwt.id decoded) with
            | None => Http.fail 401 "유효하지 않은 사용자입니다."
            | Some user =>
                if negb (User.isActive user) then Http.fail 401 "비활성화된 계정입니다."
                else Http.ok 200 "사용자 정보 조회에 성공했습니다." (User.toJSON user)
            end
      | inr jwt.JsonWebTokenError => Http.fail 401 "유효하지 않은 토큰입니다."
      | inr jwt.TokenExpiredError => Http.fail 401 "토큰이 만료되었습니다."
      | inr jwt.NotBeforeError => serverError
      end
  | _ => Http.fail 401 "인증 토큰이 필요합니다."
  end.

(** *** routes/tasks.js *)

(** [req.user]: the id is the text of the user's ObjectId, as the token
    carries it. *)
Record identity := Identity {
  id : string;
  email : string
}.

Definition tokenRequired {D} : Http.envelope D :=
  Http.fail 401 "인증 토큰이 필요합니다.".
Definition invalidToken {D} : Http.envelope D :=
  Http.fail 401 "유효하지 않은 토큰입니다.".
Definition expiredToken {D} : Http.envelope D :=
  Http.fail 401 "토큰이 만료되었습니다.".
Definition authenticationFailed {D} : Http.envelope D :=
  Http.fail 500 "인증 중 오류가 발생했습니다.".

(** [authenticateToken]: the identity handed to [next()], or the response. *)
Definition authenticateToken {D} (authHeader : option authorization) (now : Z)
    : identity + Http.envelope D :=
  match authHeader with
  | Some (Bearer token) =>
      match jwt.verify hmac token secret now with
      | inl decoded => inl (Identity (jwt.id decoded) (jwt.email decoded))
      | inr jwt.JsonWebTokenError => inr invalidToken
      | inr jwt.TokenExpiredError => inr expiredToken
      | inr jwt.NotBeforeError => inr authenticationFailed
      end
  | _ => inr tokenRequired
  end.

(** The JSON body of [POST /] and [PUT /:id].  The handlers read the first
    seven properties, [b_userId] and [b_completedAt] stand for what else a
    client may send.  A property is absent or has the type of its path: a
    text, an integer for [priority], a boolean for [completed], an array of
    texts for [tags]. *)
Record taskBody := TaskBody {
  b_title : option string;
  b_description : option string;
  b_category : option string;
  b_priority : option Z;
  b_dueDate : option string;
  b_completed : option bool;
  b_tags : option (list string);
  b_userId : option string;
  b_completedAt : option string
}.

(** The query string of [GET /]: each parameter is absent or a text. *)
Record listQuery := ListQuery {
  p_completed : option string;
  p_category : option string;
  p_priority : option string;
  p_dueDate : option string;
  p_page : option string;
  p_limit : option string;
  p_sortBy : option string;
  p_sortOrder : option string
}.

Record pagination := Pagination {
  currentPage : JS.json_number;
  totalPages : JS.json_number;
  totalItems : Z;
  itemsPerPage : JS.json_number
}.

Inductive taskData :=
| OneTask (task : Task.doc)
| TaskPage (tasks : list Task.doc) (pages : pagination)
| Statistics (stats : Task.stats) (upcomingTasks : list Task.doc)
| DeletedCount (deletedCount : Z).

Definition reply : Type := Task.collection * Http.envelope taskData.

Definition titleRequired : Http.envelope taskData :=
  Http.fail 400 "할 일 제목은 필수 항목입니다.".
Definition priorityOutOfRange : Http.envelope taskData :=
  Http.fail 400 "우선순위는 1부터 5까지의 숫자여야 합니다.".
Definition invalidTaskId : Http.envelope taskData :=
  Http.fail 400 "유효하지 않은 할 일 ID입니다.".
Definition taskNotFound : Http.envelope taskData :=
  Http.fail 404 "할 일을 찾을 수 없습니다.".
Definition validationFailed (paths : list string) : Http.envelope taskData :=
  Http.Envelope 400 true (Http.ValidationMessages paths) None.

(** [priority && (priority < 1 || priority > 5)] *)
Definition badPriority (p : option Z) : bool :=
  match p with
  | Some n => negb (n =? 0) && ((n <? 1) || (5 <? n))
  | None => false
  end.

(** [text ? new Date(text) : undefined] *)
Definition dateOf (v : option string) : option Task.date :=
  match v with
  | Some s => if JS.truthy s then Some (Date_parse s) else None
  | None => None
  end.

(** [router.post('/')] *)
Definition createTask (tasks : Task.collection) (user : identity) (newId : string)
    (body : taskBody) (now : Z) : reply :=
  if negb (present (b_title body)) || String.eqb (JS.trim (text (b_title body))) ""
  then (tasks, titleRequired)
  else if badPriority (b_priority body) then (tasks, priorityOutOfRange)
  else
    match Task.create tasks newId (id user)
            (JS.trim (text (b_title body)))
            (if present (b_description body) then JS.trim (text (b_description body)) else "")
            (JS.orElse (b_category body) "개인")
            (match b_priority body with Some 0 | None => 3 | Some n => n end)
            (dateOf (b_dueDate body))
            (match b_tags body with Some l => l | None => [] end)
            now with
    | inl (savedTask, tasks') =>
        (tasks', Http.ok 201 "할 일이 성공적으로 생성되었습니다." (OneTask savedTask))
    | inr paths => (tasks, validationFailed paths)
    end.

(** The [query] object of [GET /]. *)
Definition listFilter (user : identity) (q : listQuery) : Task.filter :=
  Task.Filter None (Some (id user))
    (option_map (fun c => String.eqb c "true") (p_completed q))
    (if present (p_category q) then p_category q else None)
    (if present (p_priority q) then Some (JS.parseInt (text (p_priority q))) else None)
    (match dateOf (p_dueDate q) with
     | Some date =>
         Some (Task.Range (Some date) (Some (option_map (fun d => addDays d 1) date)) None)
     | None => None
     end).

(** [sortOptions[sortBy] = sortOrder === 'asc' ? 1 : -1], with the defaults
    of the destructuring. *)
Definition sortOptions (q : listQuery) : Task.sortSpec :=
  [(match p_sortBy q with Some f => f | None => "createdAt" end,
    match p_sortOrder q with
    | Some o => if String.eqb o "asc" then 1 else -1
    | None => -1
    end)].

(** [parseInt(page)] and [parseInt(limit)], a missing parameter being 1
    and 10. *)
Definition pageNum (q : listQuery) : JS.number :=
  match p_page q with Some s => JS.parseInt s | None => JS.Int 1 end.
Definition limitNum (q : listQuery) : JS.number :=
  match p_limit q with Some s => JS.parseInt s | None => JS.Int 10 end.

(** [router.get('/')] *)
Definition listTasks (tasks : Task.collection) (user : identity) (q : listQuery) : reply :=
  let query := listFilter user q in
  let skip := JS.mul (JS.sub (pageNum q) (JS.Int 1)) (limitNum q) in
  match Task.find tasks query (sortOptions q) skip (limitNum q),
        Task.countDocuments tasks query with
  | Some found, Some totalCount =>
      (tasks, Http.ok 200 "할 일 목록 조회에 성공했습니다."
                (TaskPage found
                   (Pagination (JS.toJSON (pageNum q))
                               (JS.ceil_div totalCount (limitNum q))
                               totalCount
                               (JS.toJSON (limitNum q)))))
  | _, _ => (tasks, Http.fail 500 "할 일 목록 조회 중 오류가 발생했습니다.")
  end.

(** [router.get('/stats')] *)
Definition getStats (tasks : Task.collection) (user : identity) (now : Z) : reply :=
  match Task.getUserStats tasks (id user),
        Task.getUpcomingTasks tasks (id user) now (addDays now 3) with
  | Some stats, Some upcomingTasks =>
      (tasks, Http.ok 200 "할 일 통계 조회에 성공했습니다."
                (Statistics stats (firstn 5 upcomingTasks)))
  | _, _ => (tasks, Http.fail 500 "할 일 통계 조회 중 오류가 발생했습니다.")
  end.

(** [taskId.match(/^[0-9a-fA-F]{24}$/)] *)
Definition wellFormedId (taskId : string) : bool :=
  RegExp.test RegExp.objectIdRegex taskId.

(** [router.get('/:id')] *)
Definition getTask (tasks : Task.collection) (user : identity) (taskId : string) : reply :=
  if negb (wellFormedId taskId) then (tasks, invalidTaskId)
  else
    match Task.findOne tasks (Task.byIdAndOwner taskId (id user)) with
    | Some None => (tasks, taskNotFound)
    | Some (Some task) => (tasks, Http.ok 200 "할 일 조회에 성공했습니다." (OneTask task))
    | None => (tasks, Http.fail 500 "할 일 조회 중 오류가 발생했습니다.")
    end.

(** The [updateFields] object of [router.put('/:id')], or the response of the
    title check. *)
Definition updateFields (body : taskBody) : Task.update + Http.envelope taskData :=
  if match b_title body with
     | Some title => String.eqb (JS.trim title) ""
     | None => false
     end
  then inr titleRequired
  else
    inl (Task.Update
           (option_map JS.trim (b_title body))
           (option_map (fun d => if JS.truthy d then JS.trim d else "") (b_description body))
           (b_category body)
           (b_priority body)
           (option_map (fun d => if JS.truthy d then Some (Date_parse d) else None)
              (b_dueDate body))
           (b_completed body)
           (b_tags body)).

(** [router.put('/:id')] *)
Definition updateTask (tasks : Task.collection) (user : identity) (taskId : string)
    (body : taskBody) (now : Z) : reply :=
  if negb (wellFormedId taskId) then (tasks, invalidTaskId)
  else if badPriority (b_priority body) then (tasks, priorityOutOfRange)
  else
    match updateFields body with
    | inr response => (tasks, response)
    | inl fields =>
        match Task.findOneAndUpdate tasks (Task.byIdAndOwner taskId (id user)) fields now with
        | inl (Some updatedTask, tasks') =>
            (tasks', Http.ok 200 "할 일이 성공적으로 수정되었습니다." (OneTask updatedTask))
        | inl (None, _) => (tasks, taskNotFound)
        | inr (Task.ValidationError paths) => (tasks, validationFailed paths)
        | inr Task.CastError => (tasks, Http.fail 500 "할 일 수정 중 오류가 발생했습니다.")
        end
    end.

(** [router.delete('/:id')] *)
Definition deleteTask (tasks : Task.collection) (user : identity) (taskId : string) : reply :=
  if negb (wellFormedId taskId) then (tasks, invalidTaskId)
  else
    match Task.findOneAndDelete tasks (Task.byIdAndOwner taskId (id user)) with
    | Some (Some deletedTask, tasks') =>
        (tasks', Http.ok 200 "할 일이 성공적으로 삭제되었습니다." (OneTask deletedTask))
    | Some (None, _) => (tasks, taskNotFound)
    | None => (tasks, Http.fail 500 "할 일 삭제 중 오류가 발생했습니다.")
    end.

(** [router.delete('/completed')] *)
Definition deleteCompleted (tasks : Task.collection) (user : identity) : reply :=
  match Task.deleteMany tasks (Task.completedOf (id user)) with
  | Some (deletedCount, tasks') =>
      (tasks', Http.ok 200 "완료된 할 일들이 성공적으로 삭제되었습니다."
                 (DeletedCount deletedCount))
  | None => (tasks, Http.fail 500 "완료된 할 일 삭제 중 오류가 발생했습니다.")
  end.

(** *** The router: [router.use(authenticateToken)], then the routes in the
    order of their registration *)

Inductive verb := GET | POST | PUT | DELETE.

(** A route path: ['/'], a literal segment, or ['/:id']. *)
Inductive pattern :=
| Root
| Literal (segment : string)
| Param.

Inductive handler :=
| CreateTask | ListTasks | GetStats | GetTask | UpdateTask | DeleteTask | DeleteCompleted.

Definition routes : list (verb * pattern * handler) :=
  [ (POST, Root, CreateTask);
    (GET, Root, ListTasks);
    (GET, Literal "stats", GetStats);
    (GET, Param, GetTask);
    (PUT, Param, UpdateTask);
    (DELETE, Param, DeleteTask);
    (DELETE, Literal "completed", DeleteCompleted) ].

Definition sameVerb (a b : verb) : bool :=
  match a, b with
  | GET, GET | POST, POST | PUT, PUT | DELETE, DELETE => true
  | _, _ => false
  end.

(** Whether a pattern matches the path (its segments below the mount point,
    a trailing slash ignored), with the value of [req.params.id].  A literal
    is compared without regard to the case of the letters A to Z. *)
Definition matchPath (p : pattern) (path : list string) : option string :=
  match p, path with
  | Root, [] => Some ""
  | Literal l, [s] => if String.eqb (JS.lowerASCII s) (JS.lowerASCII l) then Some "" else None
  | Param, [s] => if JS.truthy s then Some s else None
  | _, _ => None
  end.

(** The first route that matches, as Express walks the stack. *)
Fixpoint dispatch (stack : list (verb * pattern * handler)) (method : verb)
    (path : list string) : option (handler * string) :=
  match stack with
  | [] => None
  | (v, p, h) :: rest =>
      if sameVerb v method
      then match matchPath p path with
           | Some param => Some (h, param)
           | None => dispatch rest method path
           end
      else dispatch rest method path
  end.

Record request := Request {
  method : verb;
  path : list string;
  authHeader : option authorization;
  query : listQuery;
  body : taskBody
}.

(** A request through the router mounted at [/api/tasks]; [None] when no
    route of the router takes it. *)
Definition tasksRouter (tasks : Task.collection) (newId : string) (req : request) (now : Z)
    : option reply :=
  match authenticateToken (authHeader req) now with
  | inr response => Some (tasks, response)
  | inl user =>
      match dispatch routes (method req) (path req) with
      | Some (CreateTask, _) => Some (createTask tasks user newId (body req) now)
      | Some (ListTasks, _) => Some (listTasks tasks user (query req))
      | Some (GetStats, _) => Some (getStats tasks user now)
      | Some (GetTask, taskId) => Some (getTask tasks user taskId)
      | Some (UpdateTask, taskId) => Some (updateTask tasks user taskId (body req) now)
      | Some (DeleteTask, taskId) => Some (deleteTask tasks user taskId)
      | Some (DeleteCompleted, _) => Some (deleteCompleted tasks user)
      | None => None
      end
  end.

(** *** What a response shows and what the collection keeps *)

(** The tasks a response carries. *)
Definition returned (response : Http.envelope taskData) : list Task.doc :=
  match Http.data response with
  | Some (OneTask t) => [t]
  | Some (TaskPage l _) => l
  | Some (Statistics _ l) => l
  | Some (DeletedCount _) | None => []
  end.

(** The unique index of [_id]. *)
Definition uniqueIds (tasks : Task.collection) : Prop :=
  NoDup (map Task._id tasks).

(** Whether the body of a [PUT /:id] passes the checks that come before the
    lookup: the priority and the title in the handler, the cast and the
    update validators in [findOneAndUpdate]. *)
Definition updateAccepted (body : taskBody) (now : Z) : bool :=
  negb (badPriority (b_priority body)) &&
  match updateFields body with
  | inl fields =>
      Task.castsUpdate fields &&
      match Task.updateErrors now fields with [] => true | _ => false end
  | inr _ => false
  end.

(** What an update leaves of a task: its id, its owner, the date of its
    creation and the date of its completion. *)
Definition sameIdentity (t t' : Task.doc) : Prop :=
  Task._id t' = Task._id t /\ Task.userId t' = Task.userId t /\
  Task.createdAt t' = Task.createdAt t /\ Task.completedAt t' = Task.completedAt t.



(** [?sortBy=...] and [?sortOrder=...] put in place of what the query
    string had. *)
Definition withSort (sortBy sortOrder : option string) (q : listQuery) : listQuery :=
  ListQuery (p_completed q) (p_category q) (p_priority q) (p_dueDate q)
            (p_page q) (p_limit q) sortBy sortOrder.

(** The tasks of a user in a collection: [userId] is the id that the id of
    the user casts to. *)
Definition ownedBy (user : identity) (d : Task.doc) : bool :=
  Task.sameId (id user) (Task.userId d).

(** Newest first, and soonest due first. *)
Definition newerFirst (a b : Task.doc) : Prop := Task.createdAt b <= Task.createdAt a.
Definition dueBefore (a b : Task.doc) : Prop :=
  exists x y, Task.dueDate a = Some x /\ Task.dueDate b = Some y /\ x <= y.

(** The unique index of [email]. *)
Definition emailsUnique (users : User.collection) : Prop :=
  NoDup (map User.email users).

(** What a login leaves of a user: everything but [updatedAt]. *)
Definition sameAccount (u u' : User.doc) : Prop :=
  User._id u' = User._id u /\ User.email u' = User.email u /\
  User.password u' = User.password u /\ User.name u' = User.name u /\
  User.subscription u' = User.subscription u /\ User.isActive u' = User.isActive u /\
  User.createdAt u' = User.createdAt u.

(** The bounds the schema puts on a task, the due date apart (it is checked
    against the clock of the write). *)
Definition schemaValid (d : Task.doc) : bool :=
  Task.valid_title (Task.title d) && Task.valid_description (Task.description d) &&
  Task.valid_category (Task.category d) && Task.valid_priority (Task.priority d) &&
  Task.valid_tags (Task.tags d).

(** [?completed=...] put in place of what the query string had. *)
Definition withCompleted (completed : option string) (q : listQuery) : listQuery :=
  ListQuery completed (p_category q) (p_priority q) (p_dueDate q)
            (p_page q) (p_limit q) (p_sortBy q) (p_sortOrder q).

(** The characters of an email that passes the check of its form. *)
Definition emailChar (c : ascii) : bool :=
  JS.isWord c || RegExp.dotOrDash c || Ascii.eqb "@" c.

(** A character of ASCII that is no white space. *)
Definition plain (c : ascii) : bool :=
  N.ltb (JS.code c) 128 && negb (JS.isSpace1 c).

(** Every class of an expression lies within a class. *)
Fixpoint within (P : ascii -> bool) (r : RegExp.re) : Prop :=
  match r with
  | RegExp.Class p => forall c, p c = true -> P c = true
  | RegExp.Seq a b | RegExp.Alt a b => within P a /\ within P b
  | RegExp.Star a => within P a
  | _ => True
  end.

(** An expression that matches no text. *)
Fixpoint void (r : RegExp.re) : bool :=
  match r with
  | RegExp.Never => true
  | RegExp.Seq a b => void a || void b
  | RegExp.Alt a b => void a && void b
  | _ => false
  end.


(** *** Sample data

    An environment and a few documents to run the handlers on. *)

(** A [Date_parse] that reads no text as a date, and a calendar of days of
    24 hours. *)
Definition unparsed : string -> Task.date := fun _ => None.
Definition utcDays : Z -> Z -> Z := fun d n => d + n * 86400000.

(** A keyed tag in place of HMAC-SHA256, and a hash [salt$password] in place
    of bcrypt. *)
Definition keyedTag : string -> jwt.payload -> string :=
  fun key claims => (key ++ ":" ++ jwt.id claims ++ ":" ++ jwt.email claims)%string.
(** No case mapping outside ASCII. *)
Definition asciiOnly : string -> string := fun s => s.
Definition saltedHash : string -> string -> string :=
  fun pass salt => (salt ++ "$" ++ pass)%string.
Definition saltedCompare : string -> string -> bool :=
  fun candidate hash =>
    match String.index 0 "$" hash with
    | Some i =>
        String.eqb candidate
          (String.substring (S i) (String.length hash - S i) hash)
    | None => false
    end.

Definition alice : identity := Identity "aaaaaaaaaaaaaaaaaaaaaaaa" "alice@example.com".
Definition bob : identity := Identity "bbbbbbbbbbbbbbbbbbbbbbbb" "bob@example.com".

Definition ann : User.doc :=
  User.Doc "aaaaaaaaaaaaaaaaaaaaaaaa" "a@x.com" "salt$secret1" "Ann" "free" true 0 0.
(** A user whose account was deactivated. *)
Definition dan : User.doc :=
  User.Doc "dddddddddddddddddddddddd" "d@x.com" "salt$secret1" "Dan" "free" false 0 0.

Definition noBody : taskBody := TaskBody None None None None None None None None None.
Definition noParams : listQuery := ListQuery None None None None None None None None.

(** [{ title: "Buy milk", priority: 3 }], [{ completed: true }],
    [{ completed: false }], [{ priority: 9 }] and [{ title: "Buy bread" }] *)
Definition buyMilk : taskBody :=
  TaskBody (Some "Buy milk") None None (Some 3) None None None None None.
Definition markDone : taskBody :=
  TaskBody None None None None None (Some true) None None None.
Definition markOpen : taskBody :=
  TaskBody None None None None None (Some false) None None None.
Definition retitle : taskBody :=
  TaskBody (Some "Buy bread") None None None None None None None None.

Definition milkId : string := "0123456789abcdef01234567".

(** The task [POST /] stores for alice from [buyMilk] at time 1000, and the
    same task completed at time 1500. *)
Definition milk : Task.doc :=
  Task.Doc milkId (id alice) "Buy milk" "" "개인" 3 None false None [] 1000 1000.
Definition milkDone : Task.doc :=
  Task.Doc milkId (id alice) "Buy milk" "" "개인" 3 None true (Some 1500) [] 1000 1500.

Definition numbered (k : nat) : Task.doc :=
  Task.Doc (String.substring k 24 "0123456789abcdef0123456789abcdef0123456789")
           (id alice) "Task" "" "개인" 3 None false None [] (Z.of_nat k) (Z.of_nat k).

(** ** Facts about the models *)

(** *** Numbers *)


Lemma sent_exact (z : Z) : Z.abs z <= 2 ^ 53 -> Task.sent (JS.Int z) = Some z.
Proof.
  intros H. unfold Task.sent.
  assert (Hp : 2 ^ 53 < 2 ^ 63) by (apply Z.pow_lt_mono_r; lia).
  destruct (Z.ltb_spec (Z.abs z) (2 ^ 63)) as [_|H']; [reflexivity|lia].
Qed.

(** [Math.ceil(n / d)] for a positive divisor. *)
Lemma ceil_div_pos (n d : Z) :
  1 <= d -> JS.ceil_div n (JS.Int d) = Some ((n + d - 1) / d).
Proof.
  intros Hd. unfold JS.ceil_div.
  destruct d as [|d|d]; try lia.
  f_equal.
  pose proof (Z.div_mod (n + Z.pos d - 1) (Z.pos d)) as E.
  pose proof (Z.mod_pos_bound (n + Z.pos d - 1) (Z.pos d)) as B.
  specialize (E ltac:(lia)). specialize (B ltac:(lia)).
  rewrite <- (Z.div_unique (- n) (Z.pos d) (- ((n + Z.pos d - 1) / Z.pos d))
                (Z.pos d - 1 - (n + Z.pos d - 1) mod Z.pos d)); nia.
Qed.

(** *** White space and trimming *)

(** The white space of [isSpace] is the white space of ECMAScript. *)
Lemma whiteSpace_isSpace (n : N) : In n JS.whiteSpace -> JS.isSpace (JS.utf8 n) = true.
Proof.
  intros H. repeat (destruct H as [<-|H]; [reflexivity|]). contradiction.
Qed.

Lemma trimEnd_cons (a : ascii) (r : string) :
  JS.trimEnd (String a r) = EmptyString \/
  JS.trimEnd (String a r) = String a (JS.trimEnd r).
Proof.
  cbn [JS.trimEnd]. cbv zeta. destruct (JS.isSpace (String a (JS.trimEnd r))); auto.
Qed.

Lemma trimEnd_idempotent (s : string) : JS.trimEnd (JS.trimEnd s) = JS.trimEnd s.
Proof.
  induction s as [|a r IH]; [reflexivity|].
  cbn [JS.trimEnd]. cbv zeta.
  destruct (JS.isSpace (String a (JS.trimEnd r))) eqn:E; [reflexivity|].
  cbn [JS.trimEnd]. cbv zeta. rewrite IH, E. reflexivity.
Qed.

Lemma trimStart_fixed (s : string) : JS.startsWithSpace s = false -> JS.trimStart s = s.
Proof.
  destruct s as [|a r1]; [reflexivity|].
  cbn [JS.startsWithSpace JS.trimStart]. intros H.
  apply orb_false_iff in H. destruct H as [H1 H]. rewrite H1.
  destruct r1 as [|b r2]; [reflexivity|].
  apply orb_false_iff in H. destruct H as [H2 H]. rewrite H2.
  destruct r2 as [|c r3]; [reflexivity|].
  rewrite H. reflexivity.
Qed.

Lemma trimStart_no_space (s : string) : JS.startsWithSpace (JS.trimStart s) = false.
Proof.
  assert (H : forall n s, (String.length s <= n)%nat ->
                          JS.startsWithSpace (JS.trimStart s) = false).
  { clear s. induction n as [|n IH]; intros s Hn.
    - destruct s; [reflexivity|simpl in Hn; lia].
    - destruct s as [|a r1]; [reflexivity|]. simpl in Hn.
      cbn [JS.trimStart].
      destruct (JS.isSpace1 a) eqn:H1; [apply IH; lia|].
      destruct r1 as [|b r2].
      { cbn [JS.startsWithSpace]. rewrite H1. reflexivity. }
      simpl in Hn.
      destruct (JS.isSpace2 a b) eqn:H2; [apply IH; lia|].
      destruct r2 as [|c r3].
      { cbn [JS.startsWithSpace]. rewrite H1, H2. reflexivity. }
      simpl in Hn.
      destruct (JS.isSpace3 a b c) eqn:H3; [apply IH; lia|].
      cbn [JS.startsWithSpace]. rewrite H1, H2, H3. reflexivity. }
  apply (H (String.length s)). lia.
Qed.

Lemma trimEnd_no_space (s : string) :
  JS.startsWithSpace s = false -> JS.startsWithSpace (JS.trimEnd s) = false.
Proof.
  destruct s as [|a r]; [reflexivity|].
  cbn [JS.startsWithSpace]. intros H.
  apply orb_false_iff in H. destruct H as [H1 H].
  destruct (trimEnd_cons a r) as [->| ->]; [reflexivity|].
  cbn [JS.startsWithSpace]. rewrite H1. cbn [orb].
  destruct r as [|b r2]; [reflexivity|].
  apply orb_false_iff in H. destruct H as [H2 H].
  destruct (trimEnd_cons b r2) as [->| ->]; [reflexivity|].
  rewrite H2. cbn [orb].
  destruct r2 as [|c r3]; [reflexivity|].
  destruct (trimEnd_cons c r3) as [->| ->]; [reflexivity|].
  exact H.
Qed.

Lemma trim_idempotent (s : string) : JS.trim (JS.trim s) = JS.trim s.
Proof.
  unfold JS.trim.
  rewrite (trimStart_fixed (JS.trimEnd (JS.trimStart s))).
  - apply trimEnd_idempotent.
  - apply trimEnd_no_space, trimStart_no_space.
Qed.

Lemma trim_empty_or_trimmed (s : string) :
  JS.trim (if JS.truthy s then JS.trim s else "") = JS.trim s.
Proof.
  destruct s as [|c r]; [reflexivity|]. cbn [JS.truthy].
  apply trim_idempotent.
Qed.

Lemma plain_no_space (a b c : ascii) :
  plain a = true ->
  JS.isSpace1 a = false /\ JS.isSpace2 a b = false /\ JS.isSpace3 a b c = false.
Proof.
  unfold plain. intros H. apply andb_true_iff in H. destruct H as [Ha Hs].
  apply negb_true_iff in Hs. apply N.ltb_lt in Ha.
  split; [exact Hs|]. unfold JS.isSpace2, JS.isSpace3.
  destruct (N.eqb_spec (JS.code a) 194); [lia|].
  destruct (N.eqb_spec (JS.code a) 225); [lia|].
  destruct (N.eqb_spec (JS.code a) 226); [lia|].
  destruct (N.eqb_spec (JS.code a) 227); [lia|].
  destruct (N.eqb_spec (JS.code a) 239); [lia|].
  split; reflexivity.
Qed.

(** A text of such characters is trimmed and is ASCII. *)
Lemma trim_plain (s : string) : JS.everyChar plain s = true -> JS.trim s = s.
Proof.
  intros H. unfold JS.trim.
  assert (Hs : JS.trimStart s = s).
  { apply trimStart_fixed. destruct s as [|a r1]; [reflexivity|].
    cbn [JS.everyChar] in H. apply andb_true_iff in H. destruct H as [Ha _].
    cbn [JS.startsWithSpace].
    destruct r1 as [|b r2].
    - destruct (plain_no_space a a a Ha) as (-> & _). reflexivity.
    - destruct r2 as [|c r3].
      + destruct (plain_no_space a b b Ha) as (-> & -> & _). reflexivity.
      + destruct (plain_no_space a b c Ha) as (-> & -> & ->). reflexivity. }
  rewrite Hs. clear Hs.
  induction s as [|a r IH]; [reflexivity|].
  cbn [JS.everyChar] in H. apply andb_true_iff in H. destruct H as [Ha Hr].
  cbn [JS.trimEnd]. cbv zeta. rewrite (IH Hr).
  replace (JS.isSpace (String a r)) with false; [reflexivity|].
  symmetry. unfold JS.isSpace.
  destruct r as [|b [|c [|d r']]].
  - apply (plain_no_space a a a Ha).
  - apply (plain_no_space a b b Ha).
  - apply (plain_no_space a b c Ha).
  - reflexivity.
Qed.

Lemma isAscii_plain (s : string) : JS.everyChar plain s = true -> JS.isAscii s = true.
Proof.
  unfold JS.isAscii. induction s as [|a r IH]; [reflexivity|].
  cbn [JS.everyChar]. intros H. apply andb_true_iff in H. destruct H as [Ha Hr].
  rewrite (IH Hr). unfold plain in Ha. apply andb_true_iff in Ha.
  destruct Ha as [-> _]. reflexivity.
Qed.

Lemma everyChar_weaken (p q : ascii -> bool) (s : string) :
  (forall c, p c = true -> q c = true) ->
  JS.everyChar p s = true -> JS.everyChar q s = true.
Proof.
  intros Hpq. induction s as [|a r IH]; [reflexivity|].
  cbn [JS.everyChar]. intros H. apply andb_true_iff in H. destruct H as [Ha Hr].
  rewrite (Hpq a Ha), (IH Hr). reflexivity.
Qed.

(** *** The form of an email *)

Lemma void_after (r : RegExp.re) (c : ascii) :
  void r = true -> RegExp.nullable r = false /\ void (RegExp.after c r) = true.
Proof.
  induction r as [| |p|a IHa b IHb|a IHa b IHb|a IHa]; simpl; try discriminate.
  - auto.
  - intros H. apply orb_true_iff in H. destruct H as [H|H].
    + destruct (IHa H) as [Hn Hv]. rewrite Hn. simpl. rewrite Hv. auto.
    + destruct (IHb H) as [Hn Hv]. rewrite Hn, andb_false_r.
      destruct (RegExp.nullable a); simpl; rewrite ?H, ?Hv, ?orb_true_r; auto.
  - intros H. apply andb_true_iff in H. destruct H as [Ha Hb].
    destruct (IHa Ha) as [Hna Hva]. destruct (IHb Hb) as [Hnb Hvb].
    rewrite Hna, Hnb, Hva, Hvb. auto.
Qed.

Lemma void_test (r : RegExp.re) (s : string) : void r = true -> RegExp.test r s = false.
Proof.
  revert r. induction s as [|c s IH]; intros r H; simpl.
  - apply (void_after r "a" H).
  - apply IH. apply (void_after r c H).
Qed.

Lemma within_after (P : ascii -> bool) (r : RegExp.re) (c : ascii) :
  within P r -> within P (RegExp.after c r).
Proof.
  induction r as [| |p|a IHa b IHb|a IHa b IHb|a IHa]; simpl; auto.
  - intros H. destruct (p c); simpl; auto.
  - intros [Ha Hb]. destruct (RegExp.nullable a); simpl; auto.
  - intros [Ha Hb]. auto.
Qed.

Lemma outside_after (P : ascii -> bool) (r : RegExp.re) (c : ascii) :
  within P r -> P c = false -> void (RegExp.after c r) = true.
Proof.
  intros Hw Hc. induction r as [| |p|a IHa b IHb|a IHa b IHb|a IHa]; simpl in *; auto.
  - destruct (p c) eqn:E; [|reflexivity]. apply Hw in E. congruence.
  - destruct Hw as [Ha Hb]. destruct (RegExp.nullable a); simpl;
      rewrite ?(IHa Ha), ?(IHb Hb); reflexivity.
  - destruct Hw as [Ha Hb]. rewrite (IHa Ha), (IHb Hb). reflexivity.
  - rewrite (IHa Hw). reflexivity.
Qed.

(** A text that an expression takes is made of characters of its classes. *)
Lemma test_within (P : ascii -> bool) (r : RegExp.re) (s : string) :
  within P r -> RegExp.test r s = true -> JS.everyChar P s = true.
Proof.
  revert r. induction s as [|c s IH]; intros r Hw Ht; [reflexivity|].
  simpl in Ht. cbn [JS.everyChar].
  destruct (P c) eqn:E.
  - simpl. apply (IH (RegExp.after c r)); [apply within_after; exact Hw|exact Ht].
  - rewrite (void_test _ s (outside_after P r c Hw E)) in Ht. discriminate.
Qed.

Lemma emailRegex_within : within emailChar RegExp.emailRegex.
Proof.
  assert (Hw : forall c, JS.isWord c = true -> emailChar c = true).
  { intros c H. unfold emailChar. rewrite H. reflexivity. }
  assert (Hd : forall c, RegExp.dotOrDash c = true -> emailChar c = true).
  { intros c H. unfold emailChar. rewrite H, orb_true_r. reflexivity. }
  assert (Ha : forall c, Ascii.eqb "@" c = true -> emailChar c = true).
  { intros c H. unfold emailChar. rewrite H. apply orb_true_r. }
  assert (Hp : forall c, Ascii.eqb "." c = true -> emailChar c = true).
  { intros c H. apply Ascii.eqb_eq in H. subst c. reflexivity. }
  unfold RegExp.emailRegex, RegExp.dotted, RegExp.Plus, RegExp.Opt, RegExp.Char, RegExp.word.
  simpl. repeat split; assumption.
Qed.

Lemma emailChar_plain (c : ascii) : emailChar c = true -> plain c = true.
Proof. destruct c as [[] [] [] [] [] [] [] []]; intros H; try reflexivity; discriminate H. Qed.

Lemma emailChar_lowerChar (c : ascii) : emailChar c = true -> emailChar (JS.lowerChar c) = true.
Proof. destruct c as [[] [] [] [] [] [] [] []]; intros H; try reflexivity; discriminate H. Qed.

Lemma lowerChar_idempotent (c : ascii) : JS.lowerChar (JS.lowerChar c) = JS.lowerChar c.
Proof. destruct c as [[] [] [] [] [] [] [] []]; reflexivity. Qed.

Lemma lowerASCII_idempotent (s : string) :
  JS.lowerASCII (JS.lowerASCII s) = JS.lowerASCII s.
Proof.
  induction s as [|c r IH]; simpl; [reflexivity|].
  rewrite lowerChar_idempotent, IH. reflexivity.
Qed.

Lemma everyChar_lowerASCII (s : string) :
  JS.everyChar emailChar s = true -> JS.everyChar emailChar (JS.lowerASCII s) = true.
Proof.
  induction s as [|c r IH]; [reflexivity|].
  cbn [JS.everyChar JS.lowerASCII]. intros H. apply andb_true_iff in H.
  destruct H as [Hc Hr]. rewrite (emailChar_lowerChar c Hc), (IH Hr). reflexivity.
Qed.

(** An email of the required form has no white space and no character
    outside ASCII: trimmed and in lower case it is the same text with its
    letters in lower case, and so is what the setters make of that. *)
Lemma castEmail_of_email (e : string) :
  RegExp.test RegExp.emailRegex e = true ->
  User.castEmail unicodeLower e = JS.lowerASCII e /\
  JS.trim (JS.toLowerCase unicodeLower e) = JS.lowerASCII e /\
  User.castEmail unicodeLower (JS.lowerASCII e) = JS.lowerASCII e.
Proof.
  intros H. apply (test_within emailChar _ _ emailRegex_within) in H.
  pose proof (everyChar_lowerASCII e H) as Hl.
  pose proof (everyChar_weaken _ _ _ emailChar_plain H) as Hp.
  pose proof (everyChar_weaken _ _ _ emailChar_plain Hl) as Hlp.
  unfold User.castEmail, JS.toLowerCase.
  rewrite (trim_plain e Hp), (isAscii_plain e Hp), (trim_plain _ Hlp),
    (isAscii_plain _ Hlp), lowerASCII_idempotent.
  auto.
Qed.

(** *** Ids *)

Lemma sameId_Some (text stored : string) :
  Task.sameId text stored = true <-> Task.ObjectId text = Some stored.
Proof.
  unfold Task.sameId. destruct (Task.ObjectId text) as [h|].
  - split.
    + intros H. apply String.eqb_eq in H. congruence.
    + intros H. injection H as ->. apply String.eqb_refl.
  - split; discriminate.
Qed.


Lemma castable_byIdAndOwner (taskId owner : string) :
  Task.castable (Task.byIdAndOwner taskId owner) =
  isSome (Task.ObjectId taskId) && isSome (Task.ObjectId owner).
Proof. unfold Task.castable, Task.byIdAndOwner. simpl. rewrite !andb_true_r. reflexivity. Qed.

(** *** Queries *)

Lemma In_insert (spec : Task.sortSpec) (x y : Task.doc) (l : list Task.doc) :
  In y (Task.insert spec x l) <-> y = x \/ In y l.
Proof.
  induction l as [|z l IH]; simpl.
  - intuition.
  - destruct (Task.compareBy spec x z); simpl; rewrite ?IH; intuition.
Qed.

Lemma In_sort (spec : Task.sortSpec) (y : Task.doc) (l : list Task.doc) :
  In y (Task.sort spec l) <-> In y l.
Proof.
  unfold Task.sort. induction l as [|z l IH]; simpl.
  - tauto.
  - rewrite In_insert, IH. intuition.
Qed.

Lemma select_sound (tasks : Task.collection) (q : Task.filter) (spec : Task.sortSpec)
    (d : Task.doc) :
  In d (Task.select tasks q spec) -> In d tasks /\ Task.matches q d = true.
Proof.
  unfold Task.select. rewrite In_sort, filter_In. tauto.
Qed.

Lemma select_nil (tasks : Task.collection) (q : Task.filter) (spec : Task.sortSpec) :
  (forall d, In d tasks -> Task.matches q d = false) -> Task.select tasks q spec = [].
Proof.
  intros H. destruct (Task.select tasks q spec) as [|d l] eqn:E; [reflexivity|].
  assert (Hd : In d (Task.select tasks q spec)) by (rewrite E; left; reflexivity).
  apply select_sound in Hd. destruct Hd as [Hin Hm].
  rewrite (H d Hin) in Hm. discriminate.
Qed.

Lemma matches_byIdAndOwner (taskId owner : string) (d : Task.doc) :
  Task.matches (Task.byIdAndOwner taskId owner) d = true ->
  Task.ObjectId taskId = Some (Task._id d) /\ Task.ObjectId owner = Some (Task.userId d).
Proof.
  unfold Task.matches, Task.byIdAndOwner; simpl.
  rewrite !andb_true_r. intros H. apply andb_true_iff in H. destruct H as [H1 H2].
  split; apply sameId_Some; assumption.
Qed.

Lemma uniqueIds_inj (tasks : Task.collection) (a b : Task.doc) :
  uniqueIds tasks -> In a tasks -> In b tasks -> Task._id a = Task._id b -> a = b.
Proof.
  unfold uniqueIds. induction tasks as [|x l IH]; simpl; [tauto|].
  intros Hnd Ha Hb E. inversion Hnd as [|? ? Hnotin Hnd']; subst.
  destruct Ha as [Ha|Ha], Hb as [Hb|Hb]; subst.
  - reflexivity.
  - exfalso. apply Hnotin. rewrite E. apply in_map, Hb.
  - exfalso. apply Hnotin. rewrite <- E. apply in_map, Ha.
  - apply IH; assumption.
Qed.


Lemma firstn_incl {A} (n : nat) (l : list A) (x : A) : In x (firstn n l) -> In x l.
Proof.
  intros H. rewrite <- (firstn_skipn n l). apply in_or_app. left. exact H.
Qed.

Lemma skipn_incl {A} (n : nat) (l : list A) (x : A) : In x (skipn n l) -> In x l.
Proof.
  intros H. rewrite <- (firstn_skipn n l). apply in_or_app. right. exact H.
Qed.

Lemma window_incl (skip limit : JS.number) (l found : list Task.doc) (x : Task.doc) :
  Task.window skip limit l = Some found -> In x found -> In x l.
Proof.
  unfold Task.window. intros H Hx.
  destruct (Task.sent skip) as [s|]; [|discriminate].
  destruct (Task.sent limit) as [n|]; [|discriminate].
  destruct (s <? 0); [discriminate|].
  injection H as <-.
  destruct (n =? 0).
  - eapply skipn_incl; eassumption.
  - eapply skipn_incl, firstn_incl; eassumption.
Qed.

Lemma matches_owner (q : Task.filter) (d : Task.doc) :
  Task.matches q d = true ->
  forall owner, Task.q_userId q = Some owner -> Task.sameId owner (Task.userId d) = true.
Proof.
  unfold Task.matches. rewrite !andb_true_iff.
  intros [[[[[_ Hu] _] _] _] _] owner E. rewrite E in Hu. exact Hu.
Qed.

Lemma matches_implies_owned (user : identity) (q : Task.filter) (d : Task.doc) :
  Task.q_userId q = Some (id user) -> Task.matches q d = true -> ownedBy user d = true.
Proof.
  intros Hq Hm. unfold ownedBy. apply (matches_owner q d Hm). exact Hq.
Qed.

(** What a listing that is answered 200 carries. *)
Lemma listTasks_found (tasks : Task.collection) (user : identity) (q : listQuery)
    (d : Task.doc) :
  In d (returned (snd (listTasks tasks user q))) ->
  In d (Task.select tasks (listFilter user q) (sortOptions q)).
Proof.
  unfold listTasks; cbv zeta.
  destruct (Task.find tasks _ _ _ _) as [found|] eqn:F; [|simpl; tauto].
  destruct (Task.countDocuments tasks _); [|simpl; tauto].
  unfold Task.find in F. destruct (Task.castable _ && Task.sortable _); [|discriminate].
  simpl. intros Hd. eapply window_incl; eassumption.
Qed.



Lemma updateFields_refuses (body : taskBody) (response : Http.envelope taskData) :
  updateFields body = inr response -> response = titleRequired.
Proof.
  unfold updateFields.
  destruct (b_title body) as [title|]; [destruct (String.eqb (JS.trim title) "")|];
    congruence.
Qed.


(** ** The claims *)


Lemma matches_completedOf (owner : string) (d : Task.doc) :
  Task.matches (Task.completedOf owner) d = true <->
  Task.sameId owner (Task.userId d) = true /\ Task.completed d = true.
Proof.
  unfold Task.matches, Task.completedOf; simpl.
  rewrite !andb_true_r. split.
  - intros H. apply andb_true_iff in H. destruct H as [H1 H2].
    destruct (Task.completed d); [auto|discriminate].
  - intros [-> ->]. reflexivity.
Qed.

(** The handler registered for [DELETE /completed], taken alone, for a
    caller whose id casts: it answers 200 with the number of completed tasks
    of the caller, zero included, and removes those tasks and no other. *)
Lemma deleteCompleted_handler (tasks : Task.collection) (user : identity) :
  isSome (Task.ObjectId (id user)) = true ->
  let mine d := Task.matches (Task.completedOf (id user)) d in
  deleteCompleted tasks user =
    (List.filter (fun d => negb (mine d)) tasks,
     Http.ok 200 "완료된 할 일들이 성공적으로 삭제되었습니다."
       (DeletedCount (Z.of_nat (List.length (List.filter mine tasks))))).
Proof.
  intros H. unfold deleteCompleted, Task.deleteMany, Task.castable. simpl.
  rewrite H. reflexivity.
Qed.

(** C3, on the code.  [DELETE /completed] is taken by the route [/:id],
    registered before it, with [completed] as the id: an authenticated request
    is answered 400 (not a well-formed id) and the collection is left as it
    is.  [GET /stats], registered before [/:id], reaches its handler. *)
Theorem delete_completed_is_taken_for_an_id (tasks : Task.collection) (newId : string)
    (authz : option authorization) (q : listQuery) (b : taskBody) (now : Z) :
  dispatch routes DELETE ["completed"] = Some (DeleteTask, "completed") /\
  dispatch routes GET ["stats"] = Some (GetStats, "") /\
  tasksRouter tasks newId (Request DELETE ["completed"] authz q b) now =
    Some (tasks,
          match authenticateToken authz now with
          | inl _ => invalidTaskId
          | inr response => response
          end).
Proof.
  split; [reflexivity|]. split; [reflexivity|].
  unfold tasksRouter; simpl.
  destruct (authenticateToken authz now); reflexivity.
Qed.

(** C4.  A token issued for a user authenticates as that user (id and
    email) until its expiry, seven days after it was issued; from then on it
    is refused with the 401 of an expired token; a token that does not parse,
    or whose signature is not the one of its claims, is refused with the 401
    of an invalid token. *)
Theorem verify_issue_roundtrip (user : User.doc) (issued now : Z) :
  (now / 1000 < issued / 1000 + sevenDays ->
   authenticateToken (D := taskData) (Some (Bearer (generateToken user issued))) now =
     inl (Identity (User._id user) (User.email user))) /\
  (issued / 1000 + sevenDays <= now / 1000 ->
   authenticateToken (D := taskData) (Some (Bearer (generateToken user issued))) now =
     inr expiredToken) /\
  (forall text,
     authenticateToken (D := taskData) (Some (Bearer (jwt.Malformed text))) now =
       inr invalidToken) /\
  (forall claims signature,
     signature <> hmac secret claims ->
     authenticateToken (D := taskData) (Some (Bearer (jwt.Compact claims signature))) now =
       inr invalidToken) /\
  Http.status (invalidToken (D := taskData)) = 401 /\
  Http.status (expiredToken (D := taskData)) = 401.
Proof.
  unfold authenticateToken, generateToken, jwt.sign, jwt.verify; simpl.
  rewrite String.eqb_refl. simpl.
  repeat split.
  - intros H. destruct (Z.leb_spec (issued / 1000 + sevenDays) (now / 1000)); [lia|reflexivity].
  - intros H. destruct (Z.leb_spec (issued / 1000 + sevenDays) (now / 1000)); [reflexivity|lia].
  - intros claims signature H.
    destruct (String.eqb_spec signature (hmac secret claims)); [contradiction|reflexivity].
Qed.

(** C5, as the code has it.  A login with an email and a password: when
    no user has the email, or the user is active and the password does not
    match, the answer is one and the same 401; when the user is not active the
    answer is the 401 of a deactivated account, whether the password matches
    or not.  No failure changes the collection. *)
Theorem login_failures (users : User.collection) (email password : string) (now : Z) :
  JS.truthy email = true -> JS.truthy password = true ->
  Http.status invalidCredentials = 401 /\
  Http.status accountDeactivated = 401 /\
  match User.findOne unicodeLower users (JS.trim (JS.toLowerCase unicodeLower email)) with
  | None =>
      forall name,
        login users (Credentials name (Some email) (Some password)) now =
          (users, invalidCredentials)
  | Some user =>
      forall name,
        (User.isActive user = false ->
         login users (Credentials name (Some email) (Some password)) now =
           (users, accountDeactivated)) /\
        (User.isActive user = true ->
         bcrypt_compare password (User.password user) = false ->
         login users (Credentials name (Some email) (Some password)) now =
           (users, invalidCredentials))
  end.
Proof.
  intros He Hp. split; [reflexivity|]. split; [reflexivity|].
  unfold login; simpl. rewrite He, Hp; simpl.
  destruct (User.findOne unicodeLower users
              (JS.trim (JS.toLowerCase unicodeLower email))) as [user|].
  - intros name. split.
    + intros Ha. rewrite Ha. reflexivity.
    + intros Ha Hc. rewrite Ha, Hc. reflexivity.
  - intros name. reflexivity.
Qed.

Lemma find_some_of {A} (p : A -> bool) (l : list A) (x : A) :
  In x l -> p x = true -> exists y, find p l = Some y.
Proof.
  induction l as [|z l IH]; simpl; [tauto|].
  intros [->|Hin] Hp.
  - rewrite Hp. eauto.
  - destruct (p z); eauto.
Qed.

Lemma truthy_of_length (s : string) (n : Z) :
  0 < n -> n <= Z.of_nat (JS.length s) -> JS.truthy s = true.
Proof. destruct s; simpl; [lia|reflexivity]. Qed.

Lemma truthy_of_email (s : string) :
  RegExp.test RegExp.emailRegex s = true -> JS.truthy s = true.
Proof. destruct s; [discriminate|reflexivity]. Qed.

(** C6, as the code has it.  A registration that passes the checks of the
    handler (a name, an email of the required form, a password whose
    [length] is six or more) and whose email, trimmed and in lower case, is
    the email of a stored user is answered 409, and the collection is left as
    it is. *)
Theorem register_duplicate_email (users : User.collection) (newId salt : string)
    (name email password : string) (now : Z) (stored : User.doc) :
  JS.truthy name = true ->
  RegExp.test RegExp.emailRegex email = true ->
  6 <= Z.of_nat (JS.length password) ->
  In stored users -> User.email stored = User.castEmail unicodeLower email ->
  register users newId salt (Credentials (Some name) (Some email) (Some password)) now =
    (users, duplicateEmail) /\
  Http.status duplicateEmail = 409.
Proof.
  intros Hn He Hp Hin Hs. split; [|reflexivity].
  unfold register; simpl.
  rewrite Hn, (truthy_of_email _ He), (truthy_of_length password 6) by lia; simpl.
  rewrite He; simpl.
  destruct (Z.ltb_spec (Z.of_nat (JS.length password)) 6); [lia|].
  destruct (find_some_of
              (fun u => String.eqb (User.email u) (User.castEmail unicodeLower email))
              users stored Hin) as [u Hu].
  { apply String.eqb_eq. exact Hs. }
  unfold User.findOne. rewrite Hu. reflexivity.
Qed.










Lemma preSave_unmodified (now : Z) (d : Task.doc) : Task.preSave false now d = d.
Proof. reflexivity. Qed.

Lemma check_nil (path : string) (valid : bool) : Task.check path valid = [] -> valid = true.
Proof. destruct valid; [reflexivity|discriminate]. Qed.

(** What [new Task({...}).save()] stores. *)
Lemma create_stores (tasks tasks' : Task.collection) (newId owner ttl descr categ : string)
    (prio : Z) (due : option Task.date) (tgs : list string) (now : Z) (t : Task.doc) :
  Task.create tasks newId owner ttl descr categ prio due tgs now = inl (t, tasks') ->
  tasks' = tasks ++ [t] /\ Task._id t = newId /\
  Task.ObjectId owner = Some (Task.userId t) /\
  Task.completed t = false /\ Task.completedAt t = None /\ Task.createdAt t = now.
Proof.
  unfold Task.create.
  destruct (_ ++ _); [|discriminate].
  destruct (Task.ObjectId owner) as [owner'|]; [|discriminate].
  rewrite preSave_unmodified. intros E. injection E as <- <-. simpl.
  repeat split; reflexivity.
Qed.

(** C9.  A [POST /] that is answered 201 stores one task more, owned by the
    caller, not completed and with no date of completion; and what the body
    says of [userId], [completed] and [completedAt] changes nothing to the
    outcome. *)
Theorem create_sets_owner_and_defaults (tasks : Task.collection) (user : identity)
    (newId : string) (body : taskBody) (now : Z) :
  Http.status (snd (createTask tasks user newId body now)) = 201 ->
  (exists t,
     createTask tasks user newId body now =
       (tasks ++ [t], Http.ok 201 "할 일이 성공적으로 생성되었습니다." (OneTask t)) /\
     Task.ObjectId (id user) = Some (Task.userId t) /\
     Task.completed t = false /\ Task.completedAt t = None) /\
  (forall owner done doneAt,
     createTask tasks user newId
       (TaskBody (b_title body) (b_description body) (b_category body) (b_priority body)
                 (b_dueDate body) done (b_tags body) owner doneAt) now =
     createTask tasks user newId body now).
Proof.
  intros H. split; [|reflexivity].
  unfold createTask in *.
  destruct (_ || _); [discriminate|].
  destruct (badPriority _); [discriminate|].
  destruct (Task.create _ _ _ _ _ _ _ _ _ _) as [[t tasks']|paths] eqn:E; [|discriminate].
  apply create_stores in E. destruct E as (-> & _ & Ho & Hc & Ha & _).
  exists t. auto.
Qed.

Lemma replaceOne_frame (tasks : Task.collection) (t t' : Task.doc) :
  uniqueIds tasks -> In t tasks ->
  Forall2 (fun d d' => d' = d \/ (d = t /\ d' = t')) tasks (Task.replaceOne t t' tasks).
Proof.
  intros Hu Hin. induction tasks as [|x l IH]; simpl; [constructor|].
  destruct (String.eqb_spec (Task._id x) (Task._id t)) as [E|E].
  - assert (x = t) by (apply (uniqueIds_inj (x :: l)); simpl; auto).
    subst x. constructor; [auto|].
    clear. induction l; constructor; auto.
  - constructor; [auto|]. apply IH.
    + unfold uniqueIds in *. simpl in Hu. inversion Hu; assumption.
    + destruct Hin as [->|Hin]; [contradiction|assumption].
Qed.

(** The unique index of [_id] holds on through the writes of the router, the
    id of a new task being fresh. *)
Lemma replaceOne_ids (tasks : Task.collection) (t t' : Task.doc) :
  Task._id t' = Task._id t ->
  map Task._id (Task.replaceOne t t' tasks) = map Task._id tasks.
Proof.
  intros E. induction tasks as [|x l IH]; simpl; [reflexivity|].
  destruct (String.eqb_spec (Task._id x) (Task._id t)) as [Ex|Ex]; simpl.
  - congruence.
  - rewrite IH. reflexivity.
Qed.

Lemma NoDup_snoc {A} (l : list A) (a : A) :
  NoDup l -> ~ In a l -> NoDup (l ++ [a]).
Proof.
  induction l as [|x l IH]; simpl; intros Hn Hf.
  - constructor; [tauto|constructor].
  - inversion Hn as [|? ? Hx Hl]; subst. constructor.
    + rewrite in_app_iff. simpl. intros [H|[H|[]]]; [contradiction|].
      apply Hf. left. symmetry. assumption.
    + apply IH; [assumption|]. intros H. apply Hf. right. assumption.
Qed.

Lemma createTask_keeps_uniqueIds (tasks : Task.collection) (user : identity)
    (newId : string) (body : taskBody) (now : Z) :
  uniqueIds tasks -> ~ In newId (map Task._id tasks) ->
  uniqueIds (fst (createTask tasks user newId body now)).
Proof.
  intros Hu Hfresh. unfold createTask.
  destruct (_ || _); [exact Hu|].
  destruct (badPriority _); [exact Hu|].
  destruct (Task.create _ _ _ _ _ _ _ _ _ _) as [[t tasks']|paths] eqn:E; [|exact Hu].
  apply create_stores in E. destruct E as (-> & Hid & _).
  unfold uniqueIds in *. simpl. rewrite map_app. simpl.
  rewrite Hid. apply NoDup_snoc; assumption.
Qed.

Lemma applyUpdate_sameIdentity (u : Task.update) (now : Z) (t : Task.doc) :
  sameIdentity t (Task.applyUpdate u now t) /\
  Task.updatedAt (Task.applyUpdate u now t) = now.
Proof. unfold sameIdentity; simpl; auto. Qed.

Lemma updateTask_keeps_uniqueIds (tasks : Task.collection) (user : identity)
    (taskId : string) (body : taskBody) (now : Z) :
  uniqueIds tasks -> uniqueIds (fst (updateTask tasks user taskId body now)).
Proof.
  intros Hu. unfold updateTask, Task.findOneAndUpdate.
  destruct (negb (wellFormedId taskId)); [exact Hu|].
  destruct (badPriority _); [exact Hu|].
  destruct (updateFields body) as [fields|response]; [|exact Hu].
  destruct (Task.castable _ && Task.castsUpdate fields); [|exact Hu].
  destruct (Task.updateErrors now fields); [|exact Hu].
  destruct (Task.select tasks _ []) as [|t rest]; simpl; [exact Hu|].
  unfold uniqueIds. rewrite replaceOne_ids; [exact Hu|reflexivity].
Qed.

(** C10, as the code has it.  A [PUT /:id] that is not answered 200 changes
    nothing.  One that is answered 200 has changed one task of the caller:
    its id, owner, [createdAt] and [completedAt] are what they were, its
    [updatedAt] is the time of the request, and every other task is what it
    was. *)
Theorem update_frame (tasks : Task.collection) (user : identity) (taskId : string)
    (body : taskBody) (now : Z) :
  uniqueIds tasks ->
  (Http.status (snd (updateTask tasks user taskId body now)) <> 200 ->
   fst (updateTask tasks user taskId body now) = tasks) /\
  (Http.status (snd (updateTask tasks user taskId body now)) = 200 ->
   exists t t',
     In t tasks /\ Task.ObjectId (id user) = Some (Task.userId t) /\
     snd (updateTask tasks user taskId body now) =
       Http.ok 200 "할 일이 성공적으로 수정되었습니다." (OneTask t') /\
     sameIdentity t t' /\ Task.updatedAt t' = now /\
     Forall2 (fun d d' => d' = d \/ (d = t /\ d' = t'))
             tasks (fst (updateTask tasks user taskId body now))).
Proof.
  intros Hu. unfold updateTask, Task.findOneAndUpdate.
  destruct (negb (wellFormedId taskId)); [split; [reflexivity|discriminate]|].
  destruct (badPriority _); [split; [reflexivity|discriminate]|].
  destruct (updateFields body) as [fields|response] eqn:F.
  2: { apply updateFields_refuses in F. subst. split; [reflexivity|discriminate]. }
  destruct (Task.castable _ && Task.castsUpdate fields);
    [|split; [reflexivity|discriminate]].
  destruct (Task.updateErrors now fields); [|split; [reflexivity|discriminate]].
  destruct (Task.select tasks _ []) as [|t rest] eqn:S; simpl;
    [split; [reflexivity|discriminate]|].
  split; [intros H; contradiction H; reflexivity|]. intros _.
  assert (Ht : In t (Task.select tasks (Task.byIdAndOwner taskId (id user)) []))
    by (rewrite S; left; reflexivity).
  apply select_sound in Ht. destruct Ht as [Hin Hm].
  apply matches_byIdAndOwner in Hm. destruct Hm as [_ Ho].
  exists t, (Task.applyUpdate fields now t).
  destruct (applyUpdate_sameIdentity fields now t) as [Hs Hn].
  repeat split; auto; try apply Hs.
  apply replaceOne_frame; assumption.
Qed.

(** ** Further properties of the handlers *)

(** *** Order of the results *)

Lemma compare_bson_antisym (a b : Task.bson) :
  Task.compare_bson b a = CompOpp (Task.compare_bson a b).
Proof.
  destruct a, b; simpl; try reflexivity;
    try apply Z.compare_antisym; apply String.compare_antisym.
Qed.

Lemma compareBy_antisym (spec : Task.sortSpec) (a b : Task.doc) :
  Task.compareBy spec b a = CompOpp (Task.compareBy spec a b).
Proof.
  induction spec as [|[f dir] spec IH]; simpl; [reflexivity|].
  rewrite (compare_bson_antisym (Task.key f dir a) (Task.key f dir b)).
  destruct (Task.compare_bson (Task.key f dir a) (Task.key f dir b)); simpl;
    [exact IH| |]; destruct (dir <? 0); reflexivity.
Qed.

Lemma insert_Sorted (spec : Task.sortSpec) (x : Task.doc) (l : list Task.doc) :
  Sorted (fun a b => Task.compareBy spec a b <> Gt) l ->
  Sorted (fun a b => Task.compareBy spec a b <> Gt) (Task.insert spec x l).
Proof.
  induction l as [|y l IH]; simpl; intros Hs.
  - constructor; constructor.
  - destruct (Task.compareBy spec x y) eqn:E.
    + constructor; [assumption|]. constructor. congruence.
    + constructor; [assumption|]. constructor. congruence.
    + inversion Hs as [|? ? Hl Hy]; subst. constructor; [apply IH; assumption|].
      destruct l as [|z l]; simpl.
      * constructor. rewrite compareBy_antisym, E. discriminate.
      * destruct (Task.compareBy spec x z).
        -- constructor. rewrite compareBy_antisym, E. discriminate.
        -- constructor. rewrite compareBy_antisym, E. discriminate.
        -- constructor. inversion Hy; assumption.
Qed.

(** Neighbours in a sorted result are in the order of the specification. *)
Lemma sort_Sorted (spec : Task.sortSpec) (l : list Task.doc) :
  Sorted (fun a b => Task.compareBy spec a b <> Gt) (Task.sort spec l).
Proof.
  unfold Task.sort. induction l as [|x l IH]; simpl.
  - constructor.
  - apply insert_Sorted, IH.
Qed.

Lemma Sorted_weaken {A} (R R' : A -> A -> Prop) (P : A -> Prop) (l : list A) :
  (forall a b, P a -> P b -> R a b -> R' a b) ->
  Forall P l -> Sorted R l -> Sorted R' l.
Proof.
  intros HR HP Hs. induction Hs as [|a l Hl IH Hh]; [constructor|].
  inversion HP as [|? ? Pa Pl]; subst.
  constructor; [apply IH; assumption|].
  destruct Hh as [|b l' Hab]; constructor.
  inversion Pl; subst. apply HR; assumption.
Qed.

Lemma StronglySorted_skipn {A} (R : A -> A -> Prop) (n : nat) (l : list A) :
  StronglySorted R l -> StronglySorted R (skipn n l).
Proof.
  revert l. induction n as [|n IH]; intros l Hs; [exact Hs|].
  destruct l as [|x l]; [exact Hs|]. simpl. apply IH.
  inversion Hs; assumption.
Qed.

Lemma StronglySorted_firstn {A} (R : A -> A -> Prop) (n : nat) (l : list A) :
  StronglySorted R l -> StronglySorted R (firstn n l).
Proof.
  revert l. induction n as [|n IH]; intros l Hs; [constructor|].
  destruct l as [|x l]; [constructor|]. simpl.
  inversion Hs as [|? ? Hl Hx]; subst. constructor; [apply IH; assumption|].
  rewrite Forall_forall in *. intros y Hy. apply Hx. eapply firstn_incl; eassumption.
Qed.

Lemma window_StronglySorted (R : Task.doc -> Task.doc -> Prop) (skip limit : JS.number)
    (l found : list Task.doc) :
  StronglySorted R l -> Task.window skip limit l = Some found -> StronglySorted R found.
Proof.
  unfold Task.window. intros Hs H.
  destruct (Task.sent skip) as [s|]; [|discriminate].
  destruct (Task.sent limit) as [n|]; [|discriminate].
  destruct (s <? 0); [discriminate|]. injection H as <-.
  destruct (n =? 0).
  - apply StronglySorted_skipn, Hs.
  - apply StronglySorted_firstn, StronglySorted_skipn, Hs.
Qed.

Lemma newerFirst_of_compare (dir : Z) (a b : Task.doc) :
  Task.compareBy (Task.preFind [("createdAt", dir)]) a b <> Gt -> newerFirst a b.
Proof.
  unfold newerFirst. simpl.
  destruct (Task.createdAt a ?= Task.createdAt b) eqn:E; simpl; intros H.
  - apply Z.compare_eq in E. lia.
  - contradiction H. reflexivity.
  - apply Z.compare_gt_iff in E. lia.
Qed.

Lemma select_newerFirst (tasks : Task.collection) (f : Task.filter) (dir : Z) :
  StronglySorted newerFirst (Task.select tasks f [("createdAt", dir)]).
Proof.
  apply Sorted_StronglySorted.
  - intros a b c. unfold newerFirst. lia.
  - unfold Task.select.
    apply (Sorted_weaken _ _ (fun _ => True) _
             (fun a b _ _ => newerFirst_of_compare dir a b)).
    + apply Forall_forall. trivial.
    + apply sort_Sorted.
Qed.

(** The tasks of a listing that names no sort key, or names [createdAt],
    come newest first, whatever [sortOrder] asks for: the hook of the schema
    sets [createdAt: -1] after the handler has set its own direction. *)
Theorem listing_by_creation_is_newest_first (tasks : Task.collection) (user : identity)
    (q : listQuery) (sortOrder : option string) :
  StronglySorted newerFirst
    (returned (snd (listTasks tasks user (withSort None sortOrder q)))) /\
  StronglySorted newerFirst
    (returned (snd (listTasks tasks user (withSort (Some "createdAt") sortOrder q)))) /\
  listTasks tasks user (withSort (Some "createdAt") (Some "asc") q) =
  listTasks tasks user (withSort (Some "createdAt") (Some "desc") q).
Proof.
  assert (H : forall sortBy, sortBy = None \/ sortBy = Some "createdAt" ->
            StronglySorted newerFirst
              (returned (snd (listTasks tasks user (withSort sortBy sortOrder q))))).
  { intros sortBy HsortBy. unfold listTasks; cbv zeta.
    destruct (Task.find tasks _ _ _ _) as [found|] eqn:F; [|constructor].
    destruct (Task.countDocuments tasks _); [|constructor].
    unfold Task.find in F. destruct (Task.castable _ && Task.sortable _); [|discriminate].
    cbn [returned snd Http.data Http.ok].
    eapply window_StronglySorted; [|exact F].
    destruct HsortBy as [-> | ->]; apply select_newerFirst. }
  split; [apply H; auto|]. split; [apply H; auto|]. reflexivity.
Qed.

(** *** [GET /stats] *)

Lemma filter_of_filter {A} (f g : A -> bool) (l : list A) :
  (forall x, f x = true -> g x = true) ->
  List.filter f (List.filter g l) = List.filter f l.
Proof.
  intros H. induction l as [|x l IH]; simpl; [reflexivity|].
  destruct (g x) eqn:G; simpl.
  - rewrite IH. reflexivity.
  - destruct (f x) eqn:F; [|exact IH]. apply H in F. congruence.
Qed.

Lemma filter_twice {A} (f g : A -> bool) (l : list A) :
  List.filter f (List.filter g l) = List.filter (fun x => f x && g x) l.
Proof.
  induction l as [|x l IH]; simpl; [reflexivity|].
  destruct (g x); simpl.
  - rewrite andb_true_r. destruct (f x); [rewrite IH|]; auto.
  - rewrite andb_false_r. exact IH.
Qed.

Lemma length_filter_split {A} (f : A -> bool) (l : list A) :
  (List.length (List.filter f l) + List.length (List.filter (fun x => negb (f x)) l)
   = List.length l)%nat.
Proof.
  induction l as [|x l IH]; simpl; [reflexivity|].
  destruct (f x); simpl; lia.
Qed.

(** The tally of the groups: the number of documents, and the number of
    them that are completed. *)
Lemma tally_groups (l : list Task.doc) :
  let done := Z.of_nat (List.length (List.filter Task.completed l)) in
  let result := fold_left Task.tally (Task.groupByCompleted l) (Task.Stats 0 0 0 0) in
  Task.total result = Z.of_nat (List.length l) /\ Task.completedCount result = done.
Proof.
  cbv zeta. unfold Task.groupByCompleted.
  rewrite (filter_ext (fun d => Bool.eqb (Task.completed d) true) Task.completed)
    by (intros d; destruct (Task.completed d); reflexivity).
  rewrite (filter_ext (fun d => Bool.eqb (Task.completed d) false)
             (fun d => negb (Task.completed d)))
    by (intros d; destruct (Task.completed d); reflexivity).
  pose proof (length_filter_split Task.completed l) as Hl.
  set (c := Z.of_nat (List.length (List.filter Task.completed l))) in *.
  set (o := Z.of_nat (List.length (List.filter (fun d => negb (Task.completed d)) l))) in *.
  assert (Hc : 0 <= c) by (unfold c; lia).
  assert (Ho : 0 <= o) by (unfold o; lia).
  assert (Hsum : c + o = Z.of_nat (List.length l)) by (unfold c, o; lia).
  clearbody c o. cbn [List.filter snd].
  destruct (Z.ltb_spec 0 c), (Z.ltb_spec 0 o);
    cbn [fold_left Task.tally Task.total Task.completedCount Task.pending
         Task.completionRate]; split; lia.
Qed.

Lemma find_all (tasks : Task.collection) (q : Task.filter) (spec : Task.sortSpec)
    (l : list Task.doc) :
  Task.find tasks q spec (JS.Int 0) (JS.Int 0) = Some l ->
  Task.castable q = true /\ l = Task.select tasks q spec.
Proof.
  unfold Task.find. destruct (Task.castable q); [|discriminate].
  destruct (Task.sortable spec); [|discriminate]. cbn [andb].
  unfold Task.window. rewrite !(sent_exact 0) by (simpl; lia). simpl.
  intros H. injection H as <-. auto.
Qed.

Lemma owned_of_cast (user : identity) (owner : string) (d : Task.doc) :
  Task.ObjectId (id user) = Some owner ->
  ownedBy user d = String.eqb owner (Task.userId d).
Proof. intros H. unfold ownedBy, Task.sameId. rewrite H. reflexivity. Qed.

(** The statistics agree with the listing: [total] is the [totalItems] that
    [GET /] reports to the same user without a filter, [completed] the
    [totalItems] it reports for [completed=true]; the completed tasks are
    among the tasks, and the rate is 0 for a user without a task. *)
Theorem stats_are_consistent (tasks : Task.collection) (user : identity) (now : Z)
    (stats : Task.stats) (upcoming : list Task.doc) :
  snd (getStats tasks user now) =
    Http.ok 200 "할 일 통계 조회에 성공했습니다." (Statistics stats upcoming) ->
  0 <= Task.completedCount stats <= Task.total stats /\
  Task.total stats <= Z.of_nat (List.length tasks) /\
  Task.countDocuments tasks (listFilter user noParams) = Some (Task.total stats) /\
  Task.countDocuments tasks (listFilter user (withCompleted (Some "true") noParams)) =
    Some (Task.completedCount stats) /\
  (Task.total stats = 0 -> Task.completionRate stats = 0).
Proof.
  unfold getStats, Task.getUserStats.
  destruct (Task.ObjectId (id user)) as [owner|] eqn:E; [|discriminate].
  destruct (Task.getUpcomingTasks _ _ _ _); [|discriminate].
  cbn [snd]. intros H. injection H as <- _.
  set (mine := List.filter (fun d => String.eqb owner (Task.userId d)) tasks).
  destruct (tally_groups mine) as [Ht Hc]. cbv zeta in Ht, Hc.
  cbn [Task.total Task.completedCount Task.completionRate]. rewrite Ht, Hc.
  pose proof (filter_length_le Task.completed mine) as H1.
  pose proof (filter_length_le (fun d => String.eqb owner (Task.userId d)) tasks) as H2.
  fold mine in H2.
  unfold Task.countDocuments, Task.castable, listFilter, Task.matches.
  cbn [Task.q_id Task.q_userId Task.q_completed Task.q_category Task.q_priority
       Task.q_dueDate withCompleted noParams p_completed p_category p_priority p_dueDate
       present dateOf option_map Task.holds andb].
  rewrite E. cbn [isSome andb].
  split; [lia|]. split; [lia|]. split; [|split].
  - unfold mine. rewrite (filter_ext _ (fun d => String.eqb owner (Task.userId d)));
      [reflexivity|].
    intros d. unfold Task.sameId. rewrite E, !andb_true_r. reflexivity.
  - unfold mine. rewrite filter_twice.
    rewrite (filter_ext _ (fun d => Task.completed d && String.eqb owner (Task.userId d)));
      [reflexivity|].
    intros d. unfold Task.sameId. rewrite E, !andb_true_r.
    destruct (Task.completed d); simpl; rewrite ?andb_true_r, ?andb_false_r;
      reflexivity.
  - intros Hz. destruct (Z.ltb_spec 0 (Z.of_nat (List.length mine))); [lia|reflexivity].
Qed.

Lemma getUserStats_own (tasks : Task.collection) (user : identity) :
  Task.getUserStats (List.filter (ownedBy user) tasks) (id user) =
  Task.getUserStats tasks (id user).
Proof.
  unfold Task.getUserStats.
  destruct (Task.ObjectId (id user)) as [owner|] eqn:E; [|reflexivity].
  rewrite (filter_of_filter (fun d => String.eqb owner (Task.userId d)) (ownedBy user) tasks).
  - reflexivity.
  - intros d H. rewrite (owned_of_cast user owner d E). exact H.
Qed.

Lemma select_own (tasks : Task.collection) (user : identity) (q : Task.filter)
    (spec : Task.sortSpec) :
  Task.q_userId q = Some (id user) ->
  Task.select (List.filter (ownedBy user) tasks) q spec = Task.select tasks q spec.
Proof.
  intros Hq. unfold Task.select.
  rewrite (filter_of_filter (Task.matches q) (ownedBy user) tasks); [reflexivity|].
  intros d. apply matches_implies_owned. exact Hq.
Qed.

(** What [GET /stats] answers to a user depends on the tasks of that user
    alone: the tasks of the others can be taken out of the collection. *)
Theorem stats_read_own_tasks_only (tasks : Task.collection) (user : identity) (now : Z) :
  fst (getStats tasks user now) = tasks /\
  snd (getStats tasks user now) =
  snd (getStats (List.filter (ownedBy user) tasks) user now).
Proof.
  split.
  - unfold getStats.
    destruct (Task.getUserStats tasks (id user));
      [destruct (Task.getUpcomingTasks tasks (id user) now (addDays now 3))|]; reflexivity.
  - unfold getStats, Task.getUpcomingTasks, Task.find.
    rewrite getUserStats_own, select_own by reflexivity.
    destruct (Task.getUserStats tasks (id user)); [|reflexivity].
    destruct (Task.castable _ && Task.sortable _); [|reflexivity].
    destruct (Task.window _ _ _); reflexivity.
Qed.

Lemma dueBefore_of_compare (a b : Task.doc) :
  (exists x, Task.dueDate a = Some x) -> (exists y, Task.dueDate b = Some y) ->
  Task.compareBy (Task.preFind [("dueDate", 1)]) a b <> Gt -> dueBefore a b.
Proof.
  intros [x Hx] [y Hy] H. exists x, y. split; [exact Hx|]. split; [exact Hy|].
  destruct (Z.compare_spec x y) as [E|E|E]; [lia|lia|].
  exfalso. apply H. cbn. unfold Task.dateKey. rewrite Hx, Hy. cbn.
  rewrite (proj2 (Z.compare_gt_iff x y)) by lia. reflexivity.
Qed.

(** The [upcomingTasks] of a [GET /stats] that is answered 200: five at
    most, each a task of the caller, not completed, due between now and three
    calendar days from now, the soonest due first. *)
Theorem stats_upcoming_tasks (tasks : Task.collection) (user : identity) (now : Z)
    (stats : Task.stats) (upcoming : list Task.doc) :
  snd (getStats tasks user now) =
    Http.ok 200 "할 일 통계 조회에 성공했습니다." (Statistics stats upcoming) ->
  (List.length upcoming <= 5)%nat /\
  Forall (fun d =>
            In d tasks /\ ownedBy user d = true /\ Task.completed d = false /\
            exists due, Task.dueDate d = Some due /\ now <= due <= addDays now 3)
         upcoming /\
  StronglySorted dueBefore upcoming.
Proof.
  unfold getStats.
  destruct (Task.getUserStats tasks (id user)); [|discriminate].
  destruct (Task.getUpcomingTasks _ _ _ _) as [l|] eqn:U; [|discriminate].
  cbn [snd]. unfold Http.ok. intros H.
  assert (Hup : upcoming = firstn 5 l) by congruence. subst upcoming. clear H.
  unfold Task.getUpcomingTasks in U. apply find_all in U. destruct U as [_ ->].
  set (q := Task.Filter None (Some (id user)) (Some false) None None
              (Some (Task.Range (Some (Some now)) None (Some (Some (addDays now 3)))))).
  assert (Hall : Forall (fun d =>
              In d tasks /\ ownedBy user d = true /\ Task.completed d = false /\
              exists due, Task.dueDate d = Some due /\ now <= due <= addDays now 3)
            (Task.select tasks q [("dueDate", 1)])).
  { apply Forall_forall. intros d Hd. apply select_sound in Hd. destruct Hd as [Hin Hm].
    split; [exact Hin|]. split; [apply (matches_implies_owned user q d eq_refl Hm)|].
    unfold Task.matches, q in Hm; simpl in Hm.
    rewrite !andb_true_r in Hm.
    apply andb_true_iff in Hm. destruct Hm as [Hm Hr].
    apply andb_true_iff in Hm. destruct Hm as [_ Hc].
    split; [destruct (Task.completed d); [discriminate|reflexivity]|].
    unfold Task.inRange in Hr. destruct (Task.dueDate d) as [due|]; [|discriminate].
    simpl in Hr. rewrite andb_true_r in Hr.
    apply andb_true_iff in Hr. destruct Hr as [H1 H2].
    exists due. split; [reflexivity|]. lia. }
  split; [apply firstn_le_length|]. split.
  - apply Forall_forall. intros d Hd. rewrite Forall_forall in Hall.
    apply Hall. eapply firstn_incl; eassumption.
  - apply StronglySorted_firstn. apply Sorted_StronglySorted.
    + intros a b c (x & y & Ha & Hb & Hxy) (y' & z & Hb' & Hc & Hyz).
      exists x, z. repeat split; try assumption. rewrite Hb in Hb'. injection Hb' as <-. lia.
    + unfold Task.select.
      apply (Sorted_weaken (fun a b => Task.compareBy (Task.preFind [("dueDate", 1)]) a b <> Gt)
               dueBefore (fun d => exists x, Task.dueDate d = Some x)).
      * intros a b. apply dueBefore_of_compare.
      * fold (Task.select tasks q [("dueDate", 1)]).
        apply Forall_forall. intros d Hd. rewrite Forall_forall in Hall.
        destruct (Hall d Hd) as (_ & _ & _ & due & Hdue & _). exists due. exact Hdue.
      * apply sort_Sorted.
Qed.

(** The virtual [daysLeft] is [null] exactly for a task that is completed or
    has no due date; otherwise it is the number [n] of days of 24 hours with
    [(n - 1) days < dueDate - today <= n days]. *)
Theorem daysLeft_counts_started_days (today : Z) (d : Task.doc) :
  (Task.daysLeft today d = None <->
   Task.completed d = true \/ Task.dueDate d = None) /\
  (forall n due,
     Task.daysLeft today d = Some n -> Task.dueDate d = Some due ->
     (n - 1) * 86400000 < due - today <= n * 86400000).
Proof.
  unfold Task.daysLeft. change (1000 * 60 * 60 * 24) with 86400000.
  destruct (Task.dueDate d) as [due|].
  - rewrite ceil_div_pos by lia. destruct (Task.completed d); split.
    + split; auto.
    + discriminate.
    + split; [discriminate|]. intros [H|H]; discriminate.
    + intros n due' Hn Hd. injection Hn as <-. injection Hd as <-.
      pose proof (Z.div_mod (due - today + 86400000 - 1) 86400000 ltac:(lia)) as E.
      pose proof (Z.mod_pos_bound (due - today + 86400000 - 1) 86400000 ltac:(lia)) as B.
      lia.
  - split; [split; auto|discriminate].
Qed.

(** *** The router and the listing *)

(** A request whose token the middleware refuses never reaches a route: the
    router answers with the response of the middleware, a 401 or, for an
    error of [jwt.verify] other than the two it names, a 500; the response
    carries no data and the collection is left as it is, whatever the method
    and the path. *)
Theorem refused_token_stops_the_request (tasks : Task.collection) (newId : string)
    (req : request) (now : Z) (response : Http.envelope taskData) :
  authenticateToken (authHeader req) now = inr response ->
  tasksRouter tasks newId req now = Some (tasks, response) /\
  (Http.status response = 401 \/ Http.status response = 500) /\
  Http.error response = true /\ Http.data response = None.
Proof.
  intros H. unfold tasksRouter. rewrite H. split; [reflexivity|].
  unfold authenticateToken in H.
  destruct (authHeader req) as [[token|other]|].
  - destruct (jwt.verify hmac token secret now) as [claims|[| |]]; [discriminate| | |];
      injection H as <-; cbn; auto.
  - injection H as <-; cbn; auto.
  - injection H as <-; cbn; auto.
Qed.

(** Every task of a listing is a task of the caller that passes each filter
    of the query string: [completed] (anything but the text [true] asks for
    the tasks not completed), [category], [priority] (read with [parseInt])
    and the day of [dueDate]. *)
Theorem listing_respects_filters (tasks : Task.collection) (user : identity)
    (q : listQuery) (d : Task.doc) :
  In d (returned (snd (listTasks tasks user q))) ->
  In d tasks /\ ownedBy user d = true /\
  (forall c, p_completed q = Some c -> Task.completed d = String.eqb c "true") /\
  (forall c, p_category q = Some c -> JS.truthy c = true -> Task.category d = c) /\
  (forall p, p_priority q = Some p -> JS.truthy p = true ->
             JS.parseInt p = JS.Int (Task.priority d)) /\
  (forall s, p_dueDate q = Some s -> JS.truthy s = true ->
             exists day due,
               Date_parse s = Some day /\ Task.dueDate d = Some due /\
               day <= due < addDays day 1).
Proof.
  intros Hd. apply listTasks_found, select_sound in Hd. destruct Hd as [Hin Hm].
  split; [exact Hin|].
  split; [apply (matches_implies_owned user (listFilter user q) d eq_refl Hm)|].
  unfold Task.matches, listFilter in Hm. cbn [Task.q_id Task.q_userId Task.q_completed
    Task.q_category Task.q_priority Task.q_dueDate] in Hm.
  rewrite !andb_true_iff in Hm.
  destruct Hm as [[[[_ Hc] Hcat] Hp] Hdue].
  split; [|split; [|split]].
  - intros c E. rewrite E in Hc. simpl in Hc. apply Bool.eqb_prop in Hc. congruence.
  - intros c E Ht. rewrite E in Hcat. unfold present in Hcat. rewrite Ht in Hcat.
    simpl in Hcat. apply String.eqb_eq in Hcat. congruence.
  - intros p E Ht. rewrite E in Hp. unfold present, text in Hp. rewrite Ht in Hp.
    simpl in Hp. destruct (JS.parseInt p) as [|n|s]; [discriminate| |discriminate].
    apply Z.eqb_eq in Hp. congruence.
  - intros s E Ht. rewrite E in Hdue. unfold dateOf in Hdue. rewrite Ht in Hdue.
    simpl in Hdue. unfold Task.inRange in Hdue.
    destruct (Task.dueDate d) as [due|]; [|discriminate].
    destruct (Date_parse s) as [day|]; [|discriminate].
    simpl in Hdue. rewrite andb_true_r in Hdue.
    apply andb_true_iff in Hdue. destruct Hdue as [H1 H2].
    exists day, due. repeat split; lia.
Qed.



(** *** A user and the tasks of that user *)

Lemma own_task_matches (t : Task.doc) (user : identity) (taskId : string) :
  ownedBy user t = true -> Task.ObjectId taskId = Some (Task._id t) ->
  Task.matches (Task.byIdAndOwner taskId (id user)) t = true /\
  Task.castable (Task.byIdAndOwner taskId (id user)) = true.
Proof.
  unfold ownedBy. intros Ho Hid. rewrite castable_byIdAndOwner, Hid.
  unfold Task.matches, Task.byIdAndOwner; simpl.
  rewrite Ho, (proj2 (sameId_Some taskId (Task._id t)) Hid).
  apply sameId_Some in Ho. rewrite Ho. auto.
Qed.

(** The query of a user for the id of one of the user's tasks selects that
    task first. *)
Lemma own_task_selected (tasks : Task.collection) (t : Task.doc) (user : identity)
    (taskId : string) :
  uniqueIds tasks -> In t tasks -> ownedBy user t = true ->
  Task.ObjectId taskId = Some (Task._id t) ->
  hd_error (Task.select tasks (Task.byIdAndOwner taskId (id user)) []) = Some t.
Proof.
  intros Hu Hin Ho Hid.
  assert (Ht : In t (Task.select tasks (Task.byIdAndOwner taskId (id user)) [])).
  { unfold Task.select. rewrite In_sort, filter_In. split; [exact Hin|].
    apply own_task_matches; assumption. }
  destruct (Task.select tasks (Task.byIdAndOwner taskId (id user)) []) as [|d l] eqn:E;
    [contradiction|].
  assert (Hd : In d (Task.select tasks (Task.byIdAndOwner taskId (id user)) []))
    by (rewrite E; left; reflexivity).
  apply select_sound in Hd. destruct Hd as [Hdin Hm].
  apply matches_byIdAndOwner in Hm. destruct Hm as [Hdid _].
  simpl. f_equal. apply (uniqueIds_inj tasks); congruence.
Qed.

(** [GET /:id] by the owner of the task, the id in either case of its
    letters: the task, and the collection as it was. *)
Theorem owner_reads_own_task (tasks : Task.collection) (t : Task.doc) (user : identity)
    (taskId : string) :
  uniqueIds tasks -> In t tasks -> ownedBy user t = true ->
  wellFormedId taskId = true -> Task.ObjectId taskId = Some (Task._id t) ->
  getTask tasks user taskId = (tasks, Http.ok 200 "할 일 조회에 성공했습니다." (OneTask t)).
Proof.
  intros Hu Hin Ho Hwf Hid. unfold getTask, Task.findOne.
  rewrite Hwf, (proj2 (own_task_matches t user taskId Ho Hid)),
    (own_task_selected tasks t user taskId) by assumption.
  reflexivity.
Qed.

Lemma In_removeOne (tasks : Task.collection) (t d : Task.doc) :
  uniqueIds tasks -> In t tasks ->
  (In d (Task.removeOne t tasks) <-> In d tasks /\ d <> t).
Proof.
  intros Hu Hin. induction tasks as [|x l IH]; simpl; [tauto|].
  destruct (String.eqb_spec (Task._id x) (Task._id t)) as [E|E].
  - assert (x = t) by (apply (uniqueIds_inj (x :: l)); simpl; auto). subst x.
    unfold uniqueIds in Hu. simpl in Hu. inversion Hu as [|? ? Hnotin _]; subst.
    split.
    + intros Hd. split; [right; exact Hd|]. intros ->. apply Hnotin. apply in_map, Hd.
    + intros [[<-|Hd] Hne]; [contradiction Hne; reflexivity|exact Hd].
  - assert (Hin' : In t l) by (destruct Hin as [->|Hin]; [contradiction|exact Hin]).
    assert (Hu' : uniqueIds l) by (unfold uniqueIds in *; simpl in Hu; inversion Hu; assumption).
    simpl. rewrite (IH Hu' Hin'). split.
    + intros [<-|[Hd Hne]]; [|tauto]. split; [left; reflexivity|]. intros ->.
      apply E. reflexivity.
    + intros [[<-|Hd] Hne]; [left; reflexivity|right; tauto].
Qed.

(** [DELETE /:id] by the owner of the task: the task is returned, it is the
    one task taken out of the collection, and a [GET /:id] for it then
    answers 404. *)
Theorem owner_deletes_own_task (tasks : Task.collection) (t : Task.doc) (user : identity)
    (taskId : string) :
  uniqueIds tasks -> In t tasks -> ownedBy user t = true ->
  wellFormedId taskId = true -> Task.ObjectId taskId = Some (Task._id t) ->
  deleteTask tasks user taskId =
    (Task.removeOne t tasks, Http.ok 200 "할 일이 성공적으로 삭제되었습니다." (OneTask t)) /\
  (forall d, In d (Task.removeOne t tasks) <-> In d tasks /\ d <> t) /\
  getTask (Task.removeOne t tasks) user taskId = (Task.removeOne t tasks, taskNotFound).
Proof.
  intros Hu Hin Ho Hwf Hid.
  pose proof (proj2 (own_task_matches t user taskId Ho Hid)) as Hc.
  split; [|split].
  - unfold deleteTask, Task.findOneAndDelete.
    rewrite Hwf, Hc, (own_task_selected tasks t user taskId) by assumption. reflexivity.
  - intros d. apply In_removeOne; assumption.
  - unfold getTask, Task.findOne. rewrite Hwf, Hc.
    rewrite select_nil; [reflexivity|].
    intros d Hd. apply (In_removeOne tasks t d Hu Hin) in Hd. destruct Hd as [Hd Hne].
    destruct (Task.matches (Task.byIdAndOwner taskId (id user)) d) eqn:M; [|reflexivity].
    apply matches_byIdAndOwner in M. destruct M as [M _].
    contradiction Hne. apply (uniqueIds_inj tasks); congruence.
Qed.

(** A task that [POST /] has stored under a fresh id is what [GET /:id]
    returns to its creator for that id. *)
Theorem created_task_is_read_back (tasks : Task.collection) (user : identity)
    (newId : string) (body : taskBody) (now : Z) :
  uniqueIds tasks -> ~ In newId (map Task._id tasks) ->
  wellFormedId newId = true -> Task.ObjectId newId = Some newId ->
  Http.status (snd (createTask tasks user newId body now)) = 201 ->
  exists t,
    snd (createTask tasks user newId body now) =
      Http.ok 201 "할 일이 성공적으로 생성되었습니다." (OneTask t) /\
    getTask (fst (createTask tasks user newId body now)) user newId =
      (fst (createTask tasks user newId body now),
       Http.ok 200 "할 일 조회에 성공했습니다." (OneTask t)).
Proof.
  intros Hu Hfresh Hwf Hcanon H201.
  pose proof (createTask_keeps_uniqueIds tasks user newId body now Hu Hfresh) as Hu'.
  unfold createTask in *.
  destruct (_ || _); [discriminate|].
  destruct (badPriority _); [discriminate|].
  destruct (Task.create _ _ _ _ _ _ _ _ _ _) as [[t tasks']|paths] eqn:E; [|discriminate].
  apply create_stores in E. destruct E as (-> & Hid & Ho & _).
  exists t. split; [reflexivity|]. simpl fst in *.
  assert (Hown : ownedBy user t = true) by (apply sameId_Some; exact Ho).
  assert (Hid' : Task.ObjectId newId = Some (Task._id t)) by congruence.
  unfold getTask, Task.findOne.
  rewrite Hwf, (proj2 (own_task_matches t user newId Hown Hid')),
    (own_task_selected (tasks ++ [t]) t user newId); try assumption.
  - reflexivity.
  - apply in_or_app. right. left. reflexivity.
Qed.

(** [PUT /:id] by the owner of the task with a body that passes the checks:
    the answer is 200 with the task as it is stored from then on; each
    property the body holds is set (texts trimmed, an empty [dueDate]
    clearing the date), each property it does not hold is what it was. *)
Theorem owner_updates_own_task (tasks : Task.collection) (t : Task.doc) (user : identity)
    (taskId : string) (body : taskBody) (now : Z) :
  uniqueIds tasks -> In t tasks -> ownedBy user t = true ->
  wellFormedId taskId = true -> Task.ObjectId taskId = Some (Task._id t) ->
  updateAccepted body now = true ->
  exists t',
    updateTask tasks user taskId body now =
      (Task.replaceOne t t' tasks,
       Http.ok 200 "할 일이 성공적으로 수정되었습니다." (OneTask t')) /\
    Task.title t' =
      match b_title body with Some s => JS.trim s | None => Task.title t end /\
    Task.description t' =
      match b_description body with Some s => JS.trim s | None => Task.description t end /\
    Task.category t' =
      match b_category body with Some c => c | None => Task.category t end /\
    Task.priority t' =
      match b_priority body with Some n => n | None => Task.priority t end /\
    Task.dueDate t' =
      match b_dueDate body with
      | Some s => if JS.truthy s then Date_parse s else None
      | None => Task.dueDate t
      end /\
    Task.completed t' =
      match b_completed body with Some c => c | None => Task.completed t end /\
    Task.tags t' =
      match b_tags body with Some l => map JS.trim l | None => Task.tags t end.
Proof.
  intros Hu Hin Ho Hwf Hid Hok.
  unfold updateAccepted in Hok. unfold updateTask, Task.findOneAndUpdate.
  rewrite Hwf, (proj2 (own_task_matches t user taskId Ho Hid)). simpl negb. cbv iota.
  destruct (badPriority (b_priority body)); [discriminate|]. simpl in Hok.
  destruct (updateFields body) as [fields|response] eqn:F; [|discriminate].
  destruct (Task.castsUpdate fields); [|discriminate]. simpl in Hok.
  destruct (Task.updateErrors now fields); [|discriminate]. cbn [andb].
  rewrite (own_task_selected tasks t user taskId) by assumption.
  exists (Task.applyUpdate fields now t). split; [reflexivity|].
  unfold updateFields in F.
  destruct (match b_title body with
            | Some title => String.eqb (JS.trim title) ""
            | None => false
            end); [discriminate|].
  injection F as <-. cbn [Task.applyUpdate Task.title Task.description Task.category
    Task.priority Task.dueDate Task.completed Task.tags Task.u_title Task.u_description
    Task.u_category Task.u_priority Task.u_dueDate Task.u_completed Task.u_tags].
  split; [|split; [|split; [|split; [|split; [|split]]]]].
  - destruct (b_title body); simpl; [apply trim_idempotent|reflexivity].
  - destruct (b_description body); simpl; [apply trim_empty_or_trimmed|reflexivity].
  - destruct (b_category body); reflexivity.
  - destruct (b_priority body); reflexivity.
  - destruct (b_dueDate body) as [s|]; simpl; [|reflexivity].
    destruct (JS.truthy s); reflexivity.
  - destruct (b_completed body); reflexivity.
  - destruct (b_tags body); reflexivity.
Qed.

(** *** What the writes keep *)

Lemma create_schemaValid (tasks tasks' : Task.collection) (newId owner ttl descr categ : string)
    (prio : Z) (due : option Task.date) (tgs : list string) (now : Z) (t : Task.doc) :
  Task.create tasks newId owner ttl descr categ prio due tgs now = inl (t, tasks') ->
  schemaValid t = true.
Proof.
  unfold Task.create.
  destruct (_ ++ _) eqn:E; [|discriminate].
  destruct (Task.ObjectId owner) as [owner'|]; [|discriminate].
  rewrite preSave_unmodified. intros H. injection H as <- _.
  repeat (apply app_eq_nil in E; destruct E as [?H E]).
  unfold schemaValid. simpl.
  repeat match goal with H : Task.check _ _ = [] |- _ => apply check_nil in H end.
  rewrite H0, H1, H2, H3, E. reflexivity.
Qed.

Lemma holds_pick {A} (p : A -> bool) (v : option A) (old : A) :
  Task.holds v p = true -> p old = true -> p (Task.pick v old) = true.
Proof. destruct v; simpl; auto. Qed.

Lemma applyUpdate_schemaValid (u : Task.update) (now : Z) (t : Task.doc) :
  Task.updateErrors now u = [] -> schemaValid t = true ->
  schemaValid (Task.applyUpdate u now t) = true.
Proof.
  unfold Task.updateErrors. intros E Hv.
  repeat (apply app_eq_nil in E; destruct E as [?H E]).
  repeat match goal with H : Task.check _ _ = [] |- _ => apply check_nil in H end.
  unfold schemaValid in *. simpl.
  rewrite !andb_true_iff in Hv. destruct Hv as [[[[V1 V2] V3] V4] V5].
  rewrite !andb_true_iff. repeat split.
  - destruct (Task.u_title u); simpl in *; assumption.
  - destruct (Task.u_description u); simpl in *; assumption.
  - apply holds_pick; assumption.
  - apply holds_pick; assumption.
  - destruct (Task.u_tags u); simpl in *; assumption.
Qed.

Lemma replaceOne_Forall (P : Task.doc -> Prop) (tasks : Task.collection) (t t' : Task.doc) :
  Forall P tasks -> P t' -> Forall P (Task.replaceOne t t' tasks).
Proof.
  intros Hall Ht'. induction Hall as [|x l Hx Hl IH]; simpl; [constructor|].
  destruct (String.eqb (Task._id x) (Task._id t)); constructor; assumption.
Qed.

Lemma removeOne_Forall (P : Task.doc -> Prop) (tasks : Task.collection) (t : Task.doc) :
  Forall P tasks -> Forall P (Task.removeOne t tasks).
Proof.
  intros Hall. induction Hall as [|x l Hx Hl IH]; simpl; [constructor|].
  destruct (String.eqb (Task._id x) (Task._id t)); [assumption|constructor; assumption].
Qed.

Lemma filter_Forall {A} (P : A -> Prop) (f : A -> bool) (l : list A) :
  Forall P l -> Forall P (List.filter f l).
Proof.
  intros Hall. induction Hall as [|x l Hx Hl IH]; simpl; [constructor|].
  destruct (f x); [constructor|]; assumption.
Qed.

(** The bounds of the schema hold on through every write of the router, for
    a body of the model (each property absent or of the type of its path): if
    each stored task has a title whose [length] is 1 to 100, a description of
    500 at most, a category of the list, a priority from 1 to 5 and tags of 20
    at most, so has each task stored after a [POST /], a [PUT /:id], a
    [DELETE /:id] and the handler of [DELETE /completed]. *)
Theorem writes_keep_the_schema (tasks : Task.collection) (user : identity)
    (newId taskId : string) (body : taskBody) (now : Z) :
  Forall (fun d => schemaValid d = true) tasks ->
  Forall (fun d => schemaValid d = true) (fst (createTask tasks user newId body now)) /\
  Forall (fun d => schemaValid d = true) (fst (updateTask tasks user taskId body now)) /\
  Forall (fun d => schemaValid d = true) (fst (deleteTask tasks user taskId)) /\
  Forall (fun d => schemaValid d = true) (fst (deleteCompleted tasks user)).
Proof.
  intros Hall. split; [|split; [|split]].
  - unfold createTask.
    destruct (_ || _); [exact Hall|].
    destruct (badPriority _); [exact Hall|].
    destruct (Task.create _ _ _ _ _ _ _ _ _ _) as [[t tasks']|paths] eqn:E; [|exact Hall].
    pose proof (create_schemaValid _ _ _ _ _ _ _ _ _ _ _ _ E) as Hv.
    apply create_stores in E. destruct E as (-> & _). simpl.
    apply Forall_app. split; [exact Hall|]. constructor; [exact Hv|constructor].
  - unfold updateTask, Task.findOneAndUpdate.
    destruct (negb (wellFormedId taskId)); [exact Hall|].
    destruct (badPriority _); [exact Hall|].
    destruct (updateFields body) as [fields|response]; [|exact Hall].
    destruct (Task.castable _ && Task.castsUpdate fields); [|exact Hall].
    destruct (Task.updateErrors now fields) eqn:E; [|exact Hall].
    destruct (Task.select tasks _ []) as [|t rest] eqn:S; simpl; [exact Hall|].
    apply replaceOne_Forall; [exact Hall|].
    apply applyUpdate_schemaValid; [exact E|].
    assert (Ht : In t (Task.select tasks (Task.byIdAndOwner taskId (id user)) []))
      by (rewrite S; left; reflexivity).
    apply select_sound in Ht. rewrite Forall_forall in Hall. apply Hall, Ht.
  - unfold deleteTask, Task.findOneAndDelete.
    destruct (negb (wellFormedId taskId)); [exact Hall|].
    destruct (Task.castable _); [|exact Hall].
    destruct (hd_error _); simpl; [|exact Hall].
    apply removeOne_Forall, Hall.
  - unfold deleteCompleted, Task.deleteMany.
    destruct (Task.castable _); [|exact Hall].
    simpl. apply filter_Forall, Hall.
Qed.

(** A request that is answered with an error has written nothing: after a
    [POST /], a [PUT /:id] or a [DELETE /:id] whose envelope says
    [error: true] the collection is what it was. *)
Theorem errors_write_nothing (tasks : Task.collection) (user : identity)
    (newId taskId : string) (body : taskBody) (now : Z) :
  (Http.error (snd (createTask tasks user newId body now)) = true ->
   fst (createTask tasks user newId body now) = tasks) /\
  (Http.error (snd (updateTask tasks user taskId body now)) = true ->
   fst (updateTask tasks user taskId body now) = tasks) /\
  (Http.error (snd (deleteTask tasks user taskId)) = true ->
   fst (deleteTask tasks user taskId) = tasks).
Proof.
  split; [|split].
  - unfold createTask.
    destruct (_ || _); [reflexivity|].
    destruct (badPriority _); [reflexivity|].
    destruct (Task.create _ _ _ _ _ _ _ _ _ _) as [[t tasks']|paths]; [discriminate|reflexivity].
  - unfold updateTask, Task.findOneAndUpdate.
    destruct (negb (wellFormedId taskId)); [reflexivity|].
    destruct (badPriority _); [reflexivity|].
    destruct (updateFields body) as [fields|response]; [|reflexivity].
    destruct (Task.castable _ && Task.castsUpdate fields); [|reflexivity].
    destruct (Task.updateErrors now fields); [|reflexivity].
    destruct (hd_error _); [discriminate|reflexivity].
  - unfold deleteTask, Task.findOneAndDelete.
    destruct (negb (wellFormedId taskId)); [reflexivity|].
    destruct (Task.castable _); [|reflexivity].
    destruct (hd_error _); [discriminate|reflexivity].
Qed.

(** *** The check of an id *)

Lemma test_Never_Seq (r : RegExp.re) (s : string) :
  RegExp.test (RegExp.Seq RegExp.Never r) s = false.
Proof. induction s as [|c s IH]; simpl; [reflexivity|exact IH]. Qed.

Lemma test_Alt (a b : RegExp.re) (s : string) :
  RegExp.test (RegExp.Alt a b) s = RegExp.test a s || RegExp.test b s.
Proof.
  revert a b. induction s as [|c s IH]; intros a b; simpl; [reflexivity|apply IH].
Qed.

Lemma test_Empty_Seq (r : RegExp.re) (s : string) :
  RegExp.test (RegExp.Seq RegExp.Empty r) s = RegExp.test r s.
Proof.
  destruct s as [|c s]; simpl; [reflexivity|].
  rewrite test_Alt, test_Never_Seq. reflexivity.
Qed.

(** [/^[class]{n}$/] takes the texts of [n] characters of the class. *)
Lemma test_Times (p : ascii -> bool) (n : nat) (s : string) :
  RegExp.test (RegExp.Times n (RegExp.Class p)) s = true <->
  String.length s = n /\ JS.everyChar p s = true.
Proof.
  revert s. induction n as [|n IH]; intros s.
  - destruct s as [|c s]; simpl.
    + tauto.
    + assert (H : forall u, RegExp.test RegExp.Never u = false)
        by (induction u; simpl; auto).
      rewrite H. split; [discriminate|]. intros [E _]. discriminate.
  - destruct s as [|c s]; simpl.
    + split; [discriminate|]. intros [E _]. discriminate.
    + destruct (p c); simpl.
      * rewrite test_Empty_Seq, IH. split; intros [E H]; split; auto; lia.
      * rewrite test_Never_Seq. split; [discriminate|]. intros [_ H]. discriminate.
Qed.

(** An id passes the check of the handlers exactly when it is 24
    hexadecimal digits; any other id is answered 400 by [GET /:id],
    [PUT /:id] and [DELETE /:id], which then read and write nothing. *)
Theorem id_check (tasks : Task.collection) (user : identity) (taskId : string) :
  (wellFormedId taskId = true <->
   String.length taskId = 24%nat /\ JS.everyChar JS.isHex taskId = true) /\
  (wellFormedId taskId = false ->
   Http.status invalidTaskId = 400 /\
   getTask tasks user taskId = (tasks, invalidTaskId) /\
   deleteTask tasks user taskId = (tasks, invalidTaskId) /\
   forall body now, updateTask tasks user taskId body now = (tasks, invalidTaskId)).
Proof.
  split; [apply test_Times|].
  intros H. unfold getTask, deleteTask, updateTask. rewrite H. simpl. auto.
Qed.

(** *** What [POST /] stores *)

(** The task stored by a [POST /] answered 201: the title and the
    description trimmed (the description empty when the body has none), the
    category [개인] when the body has none or an empty one, the priority 3
    when the body has none or 0 and else the one of the body, between 1 and 5,
    a due date not before the request, and both timestamps the time of the
    request. *)
Theorem create_applies_defaults (tasks : Task.collection) (user : identity)
    (newId : string) (body : taskBody) (now : Z) :
  Http.status (snd (createTask tasks user newId body now)) = 201 ->
  exists t,
    snd (createTask tasks user newId body now) =
      Http.ok 201 "할 일이 성공적으로 생성되었습니다." (OneTask t) /\
    Task._id t = newId /\
    Task.title t = JS.trim (text (b_title body)) /\ Task.title t <> "" /\
    Task.description t = JS.trim (text (b_description body)) /\
    Task.category t = JS.orElse (b_category body) "개인" /\
    Task.priority t = match b_priority body with Some 0 | None => 3 | Some n => n end /\
    1 <= Task.priority t <= 5 /\
    (forall due, Task.dueDate t = Some due -> now <= due) /\
    Task.tags t = map JS.trim (match b_tags body with Some l => l | None => [] end) /\
    Task.createdAt t = now /\ Task.updatedAt t = now.
Proof.
  intros H. unfold createTask in *.
  destruct (_ || _); [discriminate|].
  destruct (badPriority _); [discriminate|].
  destruct (Task.create _ _ _ _ _ _ _ _ _ _) as [[t tasks']|paths] eqn:E; [|discriminate].
  exists t. split; [reflexivity|].
  unfold Task.create in E.
  destruct (_ ++ _) eqn:Err; [|discriminate].
  destruct (Task.ObjectId (id user)) as [owner'|]; [|discriminate].
  rewrite preSave_unmodified in E. injection E as <- _.
  repeat (apply app_eq_nil in Err; destruct Err as [?H Err]).
  repeat match goal with H : Task.check _ _ = [] |- _ => apply check_nil in H end.
  cbn [Task._id Task.title Task.description Task.category Task.priority Task.dueDate
       Task.tags Task.createdAt Task.updatedAt].
  split; [reflexivity|]. split; [apply trim_idempotent|].
  split.
  { unfold Task.valid_title in H1. apply andb_true_iff in H1. destruct H1 as [Ht _].
    intros E. rewrite E in Ht. discriminate. }
  split.
  { unfold present, text. destruct (b_description body) as [s|]; [|reflexivity].
    destruct s; [reflexivity|]. apply trim_idempotent. }
  split; [reflexivity|]. split; [reflexivity|].
  split.
  { unfold Task.valid_priority in H4. apply andb_true_iff in H4. lia. }
  split.
  { intros due Hdue. destruct (dateOf (b_dueDate body)) as [[d|]|]; try discriminate.
    injection Hdue as ->. simpl in H5. lia. }
  repeat split.
Qed.

(** *** Accounts *)

Lemma find_app_none {A} (p : A -> bool) (l : list A) (x : A) :
  existsb p l = false -> p x = true -> find p (l ++ [x]) = Some x.
Proof.
  induction l as [|y l IH]; simpl; intros He Hp.
  - rewrite Hp. reflexivity.
  - apply orb_false_iff in He. destruct He as [Hy Hl]. rewrite Hy. apply IH; assumption.
Qed.

Lemma existsb_false_forall {A} (p : A -> bool) (l : list A) :
  existsb p l = false -> forall x, In x l -> p x = false.
Proof.
  induction l as [|y l IH]; simpl; intros He x Hx; [contradiction|].
  apply orb_false_iff in He. destruct He as [Hy Hl].
  destruct Hx as [<-|Hx]; [exact Hy|apply IH; assumption].
Qed.

(** What [new User({...}).save()] stores. *)
Lemma user_create_stores (users users' : User.collection) (newId salt nm mail pass : string)
    (now : Z) (u : User.doc) :
  User.create unicodeLower bcrypt_hash users newId salt nm mail pass now = inl (u, users') ->
  users' = users ++ [u] /\
  u = User.Doc newId (User.castEmail unicodeLower mail) (bcrypt_hash pass salt) (JS.trim nm)
        "free" true now now /\
  existsb (fun v => String.eqb (User.email v) (User.castEmail unicodeLower mail)) users
  = false.
Proof.
  unfold User.create.
  destruct (User.validate _ _ _); [|discriminate].
  destruct (existsb _ users) eqn:E; [discriminate|].
  intros H. injection H as <- <-. auto.
Qed.

(** A token issued for a user authenticates as that user until it
    expires. *)
Lemma issued_token_authenticates (u : User.doc) (issued now : Z) :
  now / 1000 < issued / 1000 + sevenDays ->
  authenticateToken (D := taskData) (Some (Bearer (generateToken u issued))) now =
    inl (Identity (User._id u) (User.email u)).
Proof.
  intros H. unfold authenticateToken, generateToken, jwt.sign, jwt.verify; simpl.
  rewrite String.eqb_refl. simpl.
  destruct (Z.leb_spec (issued / 1000 + sevenDays) (now / 1000)); [lia|reflexivity].
Qed.

(** A registration answered 201 has stored one user more: under the fresh id,
    with the email of the request trimmed and in lower case, which no user
    stored before had, the hash of the password in place of the password,
    active, on the free plan; the answer carries a token that authenticates
    as the new user.  A registration answered otherwise has stored
    nothing. *)
Theorem register_stores_one_user (users : User.collection) (newId salt : string)
    (body : credentials) (now : Z) :
  (Http.status (snd (register users newId salt body now)) <> 201 ->
   fst (register users newId salt body now) = users) /\
  (Http.status (snd (register users newId salt body now)) = 201 ->
   exists u,
     register users newId salt body now =
       (users ++ [u],
        Http.ok 201 "회원가입이 성공적으로 완료되었습니다."
          (User.toJSON u, generateToken u now)) /\
     u = User.Doc newId (User.castEmail unicodeLower (text (c_email body)))
           (bcrypt_hash (text (c_password body)) salt)
           (JS.trim (text (c_name body))) "free" true now now /\
     (forall v, In v users -> User.email v <> User.email u) /\
     authenticateToken (D := taskData) (Some (Bearer (generateToken u now))) now =
       inl (Identity newId (User.email u))).
Proof.
  unfold register.
  destruct (negb _); [split; [reflexivity|discriminate]|].
  destruct (RegExp.test RegExp.emailRegex (text (c_email body))) eqn:He;
    [|split; [reflexivity|discriminate]].
  cbn [negb]. cbv iota.
  destruct (_ <? 6); [split; [reflexivity|discriminate]|].
  destruct (User.findOne unicodeLower users _); [split; [reflexivity|discriminate]|].
  destruct (User.create _ _ _ _ _ _ _ _ _) as [[u users']|[paths|]] eqn:E;
    [|split; [reflexivity|discriminate]|split; [reflexivity|discriminate]].
  split; [intros H; contradiction H; reflexivity|]. intros _.
  apply user_create_stores in E. destruct E as (-> & Hu & Hnone).
  destruct (castEmail_of_email _ He) as (E1 & E2 & E3).
  rewrite E2, E3 in Hu, Hnone. rewrite trim_idempotent in Hu. rewrite <- E1 in Hu, Hnone.
  exists u. split; [reflexivity|]. split; [exact Hu|]. split.
  - intros v Hv Heq. pose proof (existsb_false_forall _ _ Hnone v Hv) as Hf.
    simpl in Hf. rewrite Heq, Hu in Hf. simpl in Hf. rewrite String.eqb_refl in Hf.
    discriminate.
  - rewrite issued_token_authenticates by (unfold sevenDays; lia).
    rewrite Hu. reflexivity.
Qed.

(** The emails of the collection stay pairwise different through a
    registration and through a login. *)
Theorem emails_stay_unique (users : User.collection) (newId salt : string)
    (body : credentials) (now : Z) :
  emailsUnique users ->
  emailsUnique (fst (register users newId salt body now)) /\
  emailsUnique (fst (login users body now)).
Proof.
  intros Hu. split.
  - unfold register.
    destruct (negb _); [exact Hu|].
    destruct (negb _); [exact Hu|].
    destruct (_ <? 6); [exact Hu|].
    destruct (User.findOne unicodeLower users _); [exact Hu|].
    destruct (User.create _ _ _ _ _ _ _ _ _) as [[u users']|[paths|]] eqn:E;
      [|exact Hu|exact Hu].
    apply user_create_stores in E. destruct E as (-> & -> & Hnone). simpl.
    unfold emailsUnique in Hu |- *. rewrite map_app. simpl. apply NoDup_snoc; [exact Hu|].
    intros Hin. apply in_map_iff in Hin. destruct Hin as (v & Hv & Hvin).
    pose proof (existsb_false_forall _ _ Hnone v Hvin) as Hf.
    simpl in Hf. rewrite Hv, String.eqb_refl in Hf. discriminate.
  - unfold login.
    destruct (negb _); [exact Hu|].
    destruct (User.findOne unicodeLower users _) as [user|]; [|exact Hu].
    destruct (negb (User.isActive user)); [exact Hu|].
    destruct (negb (bcrypt_compare _ _)); [exact Hu|].
    simpl. unfold emailsUnique, User.touch in Hu |- *. rewrite map_map.
    rewrite (map_ext _ User.email); [exact Hu|].
    intros x. destruct (String.eqb (User._id x) (User._id user)); reflexivity.
Qed.

Lemma touch_sameAccount (users : User.collection) (user : User.doc) (now : Z) :
  Forall2 sameAccount users (User.touch users user now).
Proof.
  unfold User.touch. induction users as [|x l IH]; simpl; constructor; [|exact IH].
  destruct (String.eqb (User._id x) (User._id user)); unfold sameAccount; simpl;
    repeat split; reflexivity.
Qed.

(** A login is answered 200 only for a stored user who is active, whose
    stored hash bcrypt accepts for the password, and whose email is the email
    of the request as the handler passes it on (in lower case and trimmed) and
    the setters of the schema cast it; it changes nothing in the collection
    but [updatedAt], and its token authenticates as that user. *)
Theorem login_success (users : User.collection) (body : credentials) (now : Z) :
  Http.status (snd (login users body now)) = 200 ->
  exists user json,
    In user users /\
    User.email user =
      User.castEmail unicodeLower
        (JS.trim (JS.toLowerCase unicodeLower (text (c_email body)))) /\
    User.isActive user = true /\
    bcrypt_compare (text (c_password body)) (User.password user) = true /\
    snd (login users body now) =
      Http.ok 200 "로그인에 성공했습니다." (json, generateToken user now) /\
    User.j_id json = User._id user /\ User.j_email json = User.email user /\
    Forall2 sameAccount users (fst (login users body now)) /\
    authenticateToken (D := taskData) (Some (Bearer (generateToken user now))) now =
      inl (Identity (User._id user) (User.email user)).
Proof.
  unfold login.
  destruct (negb _); [discriminate|].
  destruct (User.findOne unicodeLower users _) as [user|] eqn:F; [|discriminate].
  destruct (User.isActive user) eqn:A; [|discriminate]. simpl negb. cbv iota.
  destruct (bcrypt_compare _ _) eqn:C; [|discriminate]. simpl negb. cbv iota.
  intros _. unfold User.findOne in F. apply find_some in F. destruct F as [Hin He].
  apply String.eqb_eq in He.
  eexists user, _. split; [exact Hin|]. split; [exact He|]. split; [exact A|].
  split; [exact C|]. split; [reflexivity|]. split; [reflexivity|]. split; [reflexivity|].
  split; [apply touch_sameAccount|].
  apply issued_token_authenticates. unfold sevenDays. lia.
Qed.

(** Register, then log in: when bcrypt accepts the password for the hash it
    made of it, a login with the email and the password of a registration
    answered 201 is answered 200, for the user of the fresh id, with a token
    that authenticates as that user. *)
Theorem registered_user_can_log_in (users : User.collection) (newId salt : string)
    (name email password : string) (now later : Z) :
  bcrypt_compare password (bcrypt_hash password salt) = true ->
  Http.status
    (snd (register users newId salt
            (Credentials (Some name) (Some email) (Some password)) now)) = 201 ->
  exists json token,
    snd (login
           (fst (register users newId salt
                   (Credentials (Some name) (Some email) (Some password)) now))
           (Credentials None (Some email) (Some password)) later) =
      Http.ok 200 "로그인에 성공했습니다." (json, token) /\
    User.j_id json = newId /\ User.j_email json = User.castEmail unicodeLower email /\
    authenticateToken (D := taskData) (Some (Bearer token)) later =
      inl (Identity newId (User.castEmail unicodeLower email)).
Proof.
  intros Hb. unfold register. simpl c_name. simpl c_email. simpl c_password. simpl text.
  simpl present.
  destruct (JS.truthy name && JS.truthy email && JS.truthy password) eqn:P;
    [|discriminate]. simpl negb. cbv iota.
  apply andb_true_iff in P. destruct P as [P Hp]. apply andb_true_iff in P.
  destruct P as [_ He].
  destruct (RegExp.test RegExp.emailRegex email) eqn:Hre; [|discriminate].
  cbn [negb]. cbv iota.
  destruct (_ <? 6); [discriminate|].
  destruct (User.findOne unicodeLower users email); [discriminate|].
  destruct (User.create _ _ _ _ _ _ _ _ _) as [[u users']|[paths|]] eqn:E;
    [|discriminate|discriminate].
  intros _. apply user_create_stores in E. destruct E as (-> & Hu & Hnone).
  destruct (castEmail_of_email _ Hre) as (E1 & E2 & E3).
  rewrite E2, E3 in Hu, Hnone.
  simpl fst. unfold login. simpl c_email. simpl c_password. simpl text. simpl present.
  rewrite He, Hp. simpl negb. cbv iota.
  unfold User.findOne. rewrite E2, E3.
  rewrite (find_app_none _ users u Hnone) by (rewrite Hu; apply String.eqb_refl).
  rewrite Hu. simpl User.isActive. simpl User.password. rewrite Hb. simpl negb. cbv iota.
  eexists _, _. split; [reflexivity|]. simpl.
  rewrite E1. split; [reflexivity|]. split; [reflexivity|].
  rewrite String.eqb_refl. simpl.
  destruct (Z.leb_spec (later / 1000 + sevenDays) (later / 1000)) as [H|H];
    [unfold sevenDays in H; lia|reflexivity].
Qed.

(** The middleware and [GET /me] disagree on a deactivated user: a token
    issued for a user whose account is no longer active still authenticates
    on the task routes until it expires, with no look at the collection, while
    [GET /me] answers it 401. *)
Theorem deactivated_user_keeps_access (users : User.collection) (u : User.doc)
    (issued now : Z) :
  User.findById users (User._id u) = Some u -> User.isActive u = false ->
  now / 1000 < issued / 1000 + sevenDays ->
  authenticateToken (D := taskData) (Some (Bearer (generateToken u issued))) now =
    inl (Identity (User._id u) (User.email u)) /\
  me users (Some (Bearer (generateToken u issued))) now =
    Http.fail 401 "비활성화된 계정입니다.".
Proof.
  intros Hf Ha Ht. split; [apply issued_token_authenticates; exact Ht|].
  unfold me, generateToken, jwt.sign, jwt.verify; simpl.
  rewrite String.eqb_refl. simpl.
  destruct (Z.leb_spec (issued / 1000 + sevenDays) (now / 1000)); [lia|].
  simpl. rewrite Hf, Ha.
  unfold User.findById in Hf. destruct (Mongoose.ObjectId (User._id u)); [|discriminate].
  reflexivity.
Qed.

Lemma filter_keeps_uniqueIds (f : Task.doc -> bool) (tasks : Task.collection) :
  uniqueIds tasks -> uniqueIds (List.filter f tasks).
Proof.
  unfold uniqueIds. induction tasks as [|x l IH]; simpl; intros Hu; [constructor|].
  inversion Hu as [|? ? Hx Hl]; subst.
  destruct (f x); simpl; [|apply IH; exact Hl].
  constructor; [|apply IH; exact Hl].
  intros Hin. apply Hx. apply in_map_iff in Hin. destruct Hin as (d & Hd & Hdin).
  apply filter_In in Hdin. rewrite <- Hd. apply in_map. apply Hdin.
Qed.

Lemma removeOne_keeps_uniqueIds (t : Task.doc) (tasks : Task.collection) :
  uniqueIds tasks -> uniqueIds (Task.removeOne t tasks).
Proof.
  unfold uniqueIds. induction tasks as [|x l IH]; simpl; intros Hu; [constructor|].
  inversion Hu as [|? ? Hx Hl]; subst.
  destruct (String.eqb (Task._id x) (Task._id t)); [exact Hl|].
  simpl. constructor; [|apply IH; exact Hl].
  intros Hin. apply Hx. apply in_map_iff in Hin. destruct Hin as (d & Hd & Hdin).
  rewrite <- Hd. apply in_map.
  clear - Hdin. induction l as [|y l IHl]; simpl in *; [contradiction|].
  destruct (String.eqb (Task._id y) (Task._id t)); [right; exact Hdin|].
  destruct Hdin as [<-|Hdin]; [left; reflexivity|right; apply IHl; exact Hdin].
Qed.

(** No two stored tasks have the same id, and that holds on through every
    write of the router, the id of a created task being fresh. *)
Theorem writes_keep_ids_unique (tasks : Task.collection) (user : identity)
    (newId taskId : string) (body : taskBody) (now : Z) :
  uniqueIds tasks -> ~ In newId (map Task._id tasks) ->
  uniqueIds (fst (createTask tasks user newId body now)) /\
  uniqueIds (fst (updateTask tasks user taskId body now)) /\
  uniqueIds (fst (deleteTask tasks user taskId)) /\
  uniqueIds (fst (deleteCompleted tasks user)).
Proof.
  intros Hu Hfresh. split; [|split; [|split]].
  - apply createTask_keeps_uniqueIds; assumption.
  - apply updateTask_keeps_uniqueIds; assumption.
  - unfold deleteTask, Task.findOneAndDelete.
    destruct (negb (wellFormedId taskId)); [exact Hu|].
    destruct (Task.castable _); [|exact Hu].
    destruct (hd_error _); simpl; [|exact Hu].
    apply removeOne_keeps_uniqueIds, Hu.
  - unfold deleteCompleted, Task.deleteMany.
    destruct (Task.castable _); [|exact Hu].
    simpl. apply filter_keeps_uniqueIds, Hu.
Qed.

(** The handler registered for [DELETE /completed], when it is run and
    answers 200: the number it reports is the number of tasks it took out,
    which are the completed tasks of the caller and no others; the statistics
    of the caller then count no completed task. *)
Theorem deleteCompleted_clears_completed (tasks : Task.collection) (user : identity)
    (deletedCount : Z) :
  snd (deleteCompleted tasks user) =
    Http.ok 200 "완료된 할 일들이 성공적으로 삭제되었습니다." (DeletedCount deletedCount) ->
  deletedCount =
    Z.of_nat (List.length tasks) - Z.of_nat (List.length (fst (deleteCompleted tasks user))) /\
  (forall d, In d (fst (deleteCompleted tasks user)) <->
             In d tasks /\ ~ (ownedBy user d = true /\ Task.completed d = true)) /\
  exists stats,
    Task.getUserStats (fst (deleteCompleted tasks user)) (id user) = Some stats /\
    Task.completedCount stats = 0.
Proof.
  unfold deleteCompleted, Task.deleteMany.
  destruct (Task.castable (Task.completedOf (id user))) eqn:Hc; [|discriminate].
  cbn [fst snd]. intros H. injection H as <-.
  assert (Hm : forall d, Task.matches (Task.completedOf (id user)) d = true <->
                         ownedBy user d = true /\ Task.completed d = true).
  { intros d. apply matches_completedOf. }
  split; [|split].
  - pose proof (length_filter_split (Task.matches (Task.completedOf (id user))) tasks). lia.
  - intros d. rewrite filter_In, negb_true_iff, <- Hm.
    destruct (Task.matches (Task.completedOf (id user)) d); split; intros [H1 H2];
      split; auto; try discriminate. contradiction H2. reflexivity.
  - unfold Task.getUserStats.
    destruct (Task.ObjectId (id user)) as [owner|] eqn:E.
    2: { unfold Task.castable, Task.completedOf in Hc. simpl in Hc. rewrite E in Hc.
         discriminate. }
    eexists. split; [reflexivity|]. cbn [Task.completedCount].
    match goal with |- Task.completedCount (fold_left Task.tally (Task.groupByCompleted ?l) _) = 0 =>
      destruct (tally_groups l) as [_ Hdone]; cbv zeta in Hdone; rewrite Hdone;
      destruct (List.filter Task.completed l) as [|d rest] eqn:Ed; [reflexivity|]
    end.
    exfalso.
    assert (Hd : In d (d :: rest)) by (left; reflexivity).
    rewrite <- Ed in Hd. apply filter_In in Hd. destruct Hd as [Hd Hdone'].
    apply filter_In in Hd. destruct Hd as [Hd Ho].
    apply filter_In in Hd. destruct Hd as [_ Hn].
    apply negb_true_iff in Hn.
    assert (Task.matches (Task.completedOf (id user)) d = true).
    { apply Hm. split; [|exact Hdone']. rewrite (owned_of_cast user owner d E). exact Ho. }
    congruence.
Qed.

End Routes.

(** ** The claims on the sample data *)



(** C2, on the code.  [POST /] stores the task not completed and without a
    date of completion; [PUT /:id] with [{ completed: true }] then returns it
    completed and still without the date; and [PUT /:id] with
    [{ completed: false }] on a completed task keeps the date. *)
Theorem put_completed_leaves_completedAt :
  createTask unparsed [] alice milkId buyMilk 1000 =
    ([milk], Http.ok 201 "할 일이 성공적으로 생성되었습니다." (OneTask milk)) /\
  (exists t,
     updateTask unparsed [milk] alice milkId markDone 2000 =
       ([t], Http.ok 200 "할 일이 성공적으로 수정되었습니다." (OneTask t)) /\
     Task.completed t = true /\ Task.completedAt t = None) /\
  (exists t,
     updateTask unparsed [milkDone] alice milkId markOpen 2000 =
       ([t], Http.ok 200 "할 일이 성공적으로 수정되었습니다." (OneTask t)) /\
     Task.completed t = false /\ Task.completedAt t = Some 1500).
Proof.
  split; [reflexivity|]. split; eexists; (split; [reflexivity|]); split; reflexivity.
Qed.

(** C3 on the sample data: alice, authenticated, has a completed task; her
    [DELETE /completed] is answered 400 and the task stays. *)
Lemma delete_completed_sample :
  tasksRouter None keyedTag unparsed utcDays [milkDone] milkId
    (Request DELETE ["completed"] (Some (Bearer (generateToken None keyedTag ann 0)))
       noParams noBody) 5000 =
  Some ([milkDone], invalidTaskId) /\
  deleteCompleted [milkDone] alice =
    ([], Http.ok 200 "완료된 할 일들이 성공적으로 삭제되었습니다." (DeletedCount 1)).
Proof. split; reflexivity. Qed.

(** C4 for a token issued to ann and verified a second later. *)
Lemma verify_issue_roundtrip_witness :
  1000 / 1000 < 0 / 1000 + sevenDays /\
  @authenticateToken None keyedTag taskData
    (Some (Bearer (generateToken None keyedTag ann 0))) 1000 =
    inl (Identity (User._id ann) (User.email ann)).
Proof.
  assert (H : 1000 / 1000 < 0 / 1000 + sevenDays) by reflexivity.
  split; [exact H|].
  exact (proj1 (verify_issue_roundtrip None keyedTag ann 0 1000) H).
Defined.

(** C5 as the claim states it fails: dan's account is deactivated, the
    password does not match, and the answer is the one of a deactivated
    account, not the one of invalid credentials. *)
Lemma login_deactivated_wrong_password :
  User.findOne asciiOnly [ann; dan] "d@x.com" = Some dan /\
  saltedCompare "wrong!" (User.password dan) = false /\
  login None keyedTag saltedCompare asciiOnly [ann; dan]
    (Credentials None (Some "d@x.com") (Some "wrong!")) 5 =
    ([ann; dan], accountDeactivated) /\
  accountDeactivated <> invalidCredentials.
Proof.
  repeat split; try reflexivity. discriminate.
Qed.

(** C5 for the active account of ann and a wrong password. *)
Lemma login_failures_witness :
  JS.truthy "a@x.com" = true /\ JS.truthy "wrong!" = true /\
  login None keyedTag saltedCompare asciiOnly [ann; dan]
    (Credentials None (Some "a@x.com") (Some "wrong!")) 5 =
    ([ann; dan], invalidCredentials).
Proof.
  split; [reflexivity|]. split; [reflexivity|].
  destruct (login_failures None keyedTag saltedCompare asciiOnly [ann; dan]
              "a@x.com" "wrong!" 5 eq_refl eq_refl) as (_ & _ & H).
  change (User.findOne asciiOnly [ann; dan]
            (JS.trim (JS.toLowerCase asciiOnly "a@x.com"))) with (Some ann) in H.
  cbv beta iota in H.
  apply H; reflexivity.
Defined.

(** C6 as the claim states it fails: the email, trimmed and in lower case, is
    the one of ann, and the registration is answered 400 for its form. *)
Lemma register_padded_duplicate :
  In ann [ann] /\ User.castEmail asciiOnly " A@x.com" = User.email ann /\
  register None keyedTag saltedHash asciiOnly [ann] milkId "salt"
    (Credentials (Some "Eve") (Some " A@x.com") (Some "secret1")) 5 =
    ([ann], Http.fail 400 "유효한 이메일 주소를 입력해주세요.").
Proof.
  repeat split; try reflexivity. left; reflexivity.
Qed.

(** C6 for the email of ann in capitals. *)
Lemma register_duplicate_email_witness :
  JS.truthy "Eve" = true /\ RegExp.test RegExp.emailRegex "A@X.com" = true /\
  6 <= Z.of_nat (JS.length "secret1") /\
  In ann [ann] /\ User.email ann = User.castEmail asciiOnly "A@X.com" /\
  register None keyedTag saltedHash asciiOnly [ann] milkId "salt"
    (Credentials (Some "Eve") (Some "A@X.com") (Some "secret1")) 5 =
    ([ann], duplicateEmail).
Proof.
  assert (H1 : JS.truthy "Eve" = true) by reflexivity.
  assert (H2 : RegExp.test RegExp.emailRegex "A@X.com" = true) by reflexivity.
  assert (H3 : 6 <= Z.of_nat (JS.length "secret1")) by (vm_compute; discriminate).
  assert (H4 : In ann [ann]) by (left; reflexivity).
  assert (H5 : User.email ann = User.castEmail asciiOnly "A@X.com") by reflexivity.
  split; [exact H1|]. split; [exact H2|]. split; [exact H3|].
  split; [exact H4|]. split; [exact H5|].
  exact (proj1 (register_duplicate_email None keyedTag saltedHash asciiOnly [ann] milkId
                  "salt" "Eve" "A@X.com" "secret1" 5 ann H1 H2 H3 H4 H5)).
Defined.





(** C9 for a body that names bob as the owner and says the task is done. *)
Lemma create_sets_owner_and_defaults_witness :
  Http.status (snd (createTask unparsed [] alice milkId buyMilk 1000)) = 201 /\
  createTask unparsed [] alice milkId
    (TaskBody (Some "Buy milk") None None (Some 3) None (Some true) None
              (Some (id bob)) (Some "2024-01-01")) 1000 =
  createTask unparsed [] alice milkId buyMilk 1000.
Proof.
  assert (H : Http.status
                (snd (createTask unparsed [] alice milkId buyMilk 1000)) = 201)
    by reflexivity.
  split; [exact H|].
  exact (proj2 (create_sets_owner_and_defaults unparsed [] alice milkId buyMilk 1000 H)
           (Some (id bob)) (Some true) (Some "2024-01-01")).
Defined.

(** C10 as the claim states it fails: a [PUT] of a new title also moves
    [updatedAt], which is none of the seven fields. *)
Lemma put_moves_updatedAt :
  exists t,
    updateTask unparsed [milk] alice milkId retitle 2000 =
      ([t], Http.ok 200 "할 일이 성공적으로 수정되었습니다." (OneTask t)) /\
    Task.title t = "Buy bread" /\
    Task.updatedAt milk = 1000 /\ Task.updatedAt t = 2000.
Proof.
  eexists. split; [reflexivity|]. repeat split; reflexivity.
Qed.

(** C10 for a [PUT] of alice on her task. *)
Lemma update_frame_witness :
  uniqueIds [milk] /\
  exists t',
    snd (updateTask unparsed [milk] alice milkId markDone 2000) =
      Http.ok 200 "할 일이 성공적으로 수정되었습니다." (OneTask t') /\
    sameIdentity milk t'.
Proof.
  assert (Hu : uniqueIds [milk]) by (repeat constructor; simpl; tauto).
  split; [exact Hu|].
  destruct (proj2 (update_frame unparsed [milk] alice milkId markDone 2000 Hu) eq_refl)
    as (t & t' & Hin & _ & Hr & Hs & _).
  exists t'. split; [exact Hr|].
  destruct Hin as [<-|[]]. exact Hs.
Defined.

(** ** The further properties on the sample data *)

(** The statistics of alice when her one task is completed, next to her
    listings. *)
Lemma stats_are_consistent_witness :
  (exists stats upcoming,
     snd (getStats utcDays [milkDone] alice 2000) =
       Http.ok 200 "할 일 통계 조회에 성공했습니다." (Statistics stats upcoming) /\
     Task.total stats = 1 /\ Task.completedCount stats = 1) /\
  Task.countDocuments [milkDone] (listFilter unparsed utcDays alice noParams) = Some 1 /\
  Task.countDocuments [milkDone]
    (listFilter unparsed utcDays alice (withCompleted (Some "true") noParams)) = Some 1.
Proof.
  assert (H : snd (getStats utcDays [milkDone] alice 2000) =
              Http.ok 200 "할 일 통계 조회에 성공했습니다."
                (Statistics (Task.Stats 1 1 0 100) [])) by reflexivity.
  split; [exists (Task.Stats 1 1 0 100), []; split; [exact H|split; reflexivity]|].
  destruct (stats_are_consistent unparsed utcDays [milkDone] alice 2000
              (Task.Stats 1 1 0 100) [] H) as (_ & _ & Ht & Hc & _).
  split; [exact Ht|exact Hc].
Defined.

(** The statistics of alice, one of whose tasks is due tomorrow. *)
Lemma stats_upcoming_tasks_witness :
  exists stats upcoming,
    snd (getStats utcDays
           [milk; Task.Doc "123456789abcdef012345678" (id alice) "Pay rent" "" "개인" 3
                    (Some 86401000) false None [] 1000 1000] alice 1000) =
      Http.ok 200 "할 일 통계 조회에 성공했습니다." (Statistics stats upcoming) /\
    List.length upcoming = 1%nat /\
    Forall (fun d => ownedBy alice d = true /\ Task.completed d = false) upcoming.
Proof.
  eexists _, _. split; [reflexivity|]. split; [reflexivity|].
  destruct (stats_upcoming_tasks utcDays
              [milk; Task.Doc "123456789abcdef012345678" (id alice) "Pay rent" "" "개인" 3
                       (Some 86401000) false None [] 1000 1000] alice 1000 _ _ eq_refl)
    as (_ & H & _).
  apply (Forall_impl _ (fun d Hd => conj (proj1 (proj2 Hd)) (proj1 (proj2 (proj2 Hd)))) H).
Defined.

(** A task due one day and one millisecond from now has two days left. *)
Lemma daysLeft_counts_started_days_witness :
  Task.daysLeft 1000
    (Task.Doc milkId (id alice) "Buy milk" "" "개인" 3 (Some 86401001) false None []
              1000 1000) = Some 2 /\
  (2 - 1) * 86400000 < 86401001 - 1000 <= 2 * 86400000.
Proof.
  split; [reflexivity|].
  exact (proj2 (daysLeft_counts_started_days 1000
                  (Task.Doc milkId (id alice) "Buy milk" "" "개인" 3 (Some 86401001) false
                            None [] 1000 1000))
               2 86401001 eq_refl eq_refl).
Defined.

(** A request without a header, refused by the middleware. *)
Lemma refused_token_stops_the_request_witness :
  @authenticateToken None keyedTag taskData None 5 = inr tokenRequired /\
  tasksRouter None keyedTag unparsed utcDays [milk] milkId
    (Request DELETE [milkId] None noParams noBody) 5 = Some ([milk], tokenRequired).
Proof.
  assert (H : @authenticateToken None keyedTag taskData
                (authHeader (Request DELETE [milkId] None noParams noBody)) 5 =
              inr tokenRequired) by reflexivity.
  split; [exact H|].
  exact (proj1 (refused_token_stops_the_request None keyedTag unparsed utcDays [milk] milkId
                  (Request DELETE [milkId] None noParams noBody) 5 tokenRequired H)).
Defined.

(** The listing of alice's tasks that are not completed. *)
Lemma listing_respects_filters_witness :
  In milk (returned (snd (listTasks unparsed utcDays [numbered 1; milk] alice
                            (ListQuery (Some "false") None None None None None None None)))) /\
  Task.completed milk = String.eqb "false" "true".
Proof.
  assert (H : In milk
                (returned (snd (listTasks unparsed utcDays [numbered 1; milk] alice
                                  (ListQuery (Some "false") None None None None None
                                             None None)))))
    by (vm_compute; tauto).
  split; [exact H|].
  destruct (listing_respects_filters unparsed utcDays [numbered 1; milk] alice
              (ListQuery (Some "false") None None None None None None None) milk H)
    as (_ & _ & Hc & _).
  exact (Hc "false" eq_refl).
Defined.


(** alice reads her task under its id in capitals. *)
Lemma owner_reads_own_task_witness :
  uniqueIds [milk] /\ In milk [milk] /\ ownedBy alice milk = true /\
  wellFormedId "0123456789ABCDEF01234567" = true /\
  Task.ObjectId "0123456789ABCDEF01234567" = Some (Task._id milk) /\
  getTask [milk] alice "0123456789ABCDEF01234567" =
    ([milk], Http.ok 200 "할 일 조회에 성공했습니다." (OneTask milk)).
Proof.
  assert (Hu : uniqueIds [milk]) by (repeat constructor; simpl; tauto).
  assert (Hin : In milk [milk]) by (left; reflexivity).
  split; [exact Hu|]. split; [exact Hin|]. split; [reflexivity|].
  split; [reflexivity|]. split; [reflexivity|].
  exact (owner_reads_own_task [milk] milk alice "0123456789ABCDEF01234567"
           Hu Hin eq_refl eq_refl eq_refl).
Defined.

(** alice deletes her task; a [GET] for it then answers 404. *)
Lemma owner_deletes_own_task_witness :
  uniqueIds [milk] /\ In milk [milk] /\ ownedBy alice milk = true /\
  wellFormedId milkId = true /\ Task.ObjectId milkId = Some (Task._id milk) /\
  deleteTask [milk] alice milkId =
    (Task.removeOne milk [milk],
     Http.ok 200 "할 일이 성공적으로 삭제되었습니다." (OneTask milk)) /\
  getTask (Task.removeOne milk [milk]) alice milkId =
    (Task.removeOne milk [milk], taskNotFound).
Proof.
  assert (Hu : uniqueIds [milk]) by (repeat constructor; simpl; tauto).
  assert (Hin : In milk [milk]) by (left; reflexivity).
  split; [exact Hu|]. split; [exact Hin|]. split; [reflexivity|].
  split; [reflexivity|]. split; [reflexivity|].
  destruct (owner_deletes_own_task [milk] milk alice milkId Hu Hin eq_refl eq_refl eq_refl)
    as (Hd & _ & Hg).
  split; [exact Hd|exact Hg].
Defined.

(** alice creates a task in an empty collection and reads it back. *)
Lemma created_task_is_read_back_witness :
  uniqueIds [] /\ ~ In milkId (map Task._id []) /\
  wellFormedId milkId = true /\ Task.ObjectId milkId = Some milkId /\
  Http.status (snd (createTask unparsed [] alice milkId buyMilk 1000)) = 201 /\
  exists t,
    snd (createTask unparsed [] alice milkId buyMilk 1000) =
      Http.ok 201 "할 일이 성공적으로 생성되었습니다." (OneTask t) /\
    getTask (fst (createTask unparsed [] alice milkId buyMilk 1000)) alice milkId =
      (fst (createTask unparsed [] alice milkId buyMilk 1000),
       Http.ok 200 "할 일 조회에 성공했습니다." (OneTask t)).
Proof.
  assert (Hu : uniqueIds []) by constructor.
  assert (Hf : ~ In milkId (map Task._id [])) by (simpl; tauto).
  split; [exact Hu|]. split; [exact Hf|]. split; [reflexivity|].
  split; [reflexivity|]. split; [reflexivity|].
  exact (created_task_is_read_back unparsed [] alice milkId buyMilk 1000
           Hu Hf eq_refl eq_refl eq_refl).
Defined.

(** alice gives her task a new title. *)
Lemma owner_updates_own_task_witness :
  uniqueIds [milk] /\ In milk [milk] /\ ownedBy alice milk = true /\
  wellFormedId milkId = true /\ Task.ObjectId milkId = Some (Task._id milk) /\
  updateAccepted unparsed retitle 2000 = true /\
  exists t',
    updateTask unparsed [milk] alice milkId retitle 2000 =
      (Task.replaceOne milk t' [milk],
       Http.ok 200 "할 일이 성공적으로 수정되었습니다." (OneTask t')) /\
    Task.title t' = "Buy bread" /\ Task.priority t' = Task.priority milk.
Proof.
  assert (Hu : uniqueIds [milk]) by (repeat constructor; simpl; tauto).
  assert (Hin : In milk [milk]) by (left; reflexivity).
  split; [exact Hu|]. split; [exact Hin|]. split; [reflexivity|].
  split; [reflexivity|]. split; [reflexivity|]. split; [reflexivity|].
  destruct (owner_updates_own_task unparsed [milk] milk alice milkId retitle 2000
              Hu Hin eq_refl eq_refl eq_refl eq_refl)
    as (t' & Hr & Ht & _ & _ & Hp & _).
  exists t'. split; [exact Hr|]. split; [exact Ht|exact Hp].
Defined.

(** The schema and the unique ids, kept by a [POST /] next to alice's task. *)
Lemma writes_keep_the_schema_witness :
  Forall (fun d => schemaValid d = true) [milk] /\
  Forall (fun d => schemaValid d = true)
    (fst (createTask unparsed [milk] alice "123456789abcdef012345678" buyMilk 2000)).
Proof.
  assert (H : Forall (fun d => schemaValid d = true) [milk])
    by (constructor; [reflexivity|constructor]).
  split; [exact H|].
  exact (proj1 (writes_keep_the_schema unparsed [milk] alice "123456789abcdef012345678"
                  milkId buyMilk 2000 H)).
Defined.

Lemma writes_keep_ids_unique_witness :
  uniqueIds [milk] /\ ~ In "123456789abcdef012345678" (map Task._id [milk]) /\
  uniqueIds (fst (createTask unparsed [milk] alice "123456789abcdef012345678" buyMilk 2000)).
Proof.
  assert (Hu : uniqueIds [milk]) by (repeat constructor; simpl; tauto).
  assert (Hf : ~ In "123456789abcdef012345678" (map Task._id [milk]))
    by (simpl; intros [H|[]]; discriminate).
  split; [exact Hu|]. split; [exact Hf|].
  exact (proj1 (writes_keep_ids_unique unparsed [milk] alice "123456789abcdef012345678"
                  milkId buyMilk 2000 Hu Hf)).
Defined.

(** A [POST /] without a title is answered with an error and stores
    nothing. *)
Lemma errors_write_nothing_witness :
  Http.error (snd (createTask unparsed [milk] alice milkId noBody 2000)) = true /\
  fst (createTask unparsed [milk] alice milkId noBody 2000) = [milk].
Proof.
  assert (H : Http.error (snd (createTask unparsed [milk] alice milkId noBody 2000)) = true)
    by reflexivity.
  split; [exact H|].
  exact (proj1 (errors_write_nothing unparsed [milk] alice milkId milkId noBody 2000) H).
Defined.

(** The text [completed] is no id. *)
Lemma id_check_witness :
  wellFormedId "completed" = false /\
  getTask [milk] alice "completed" = ([milk], invalidTaskId).
Proof.
  assert (H : wellFormedId "completed" = false) by reflexivity.
  split; [exact H|].
  destruct (proj2 (id_check unparsed [milk] alice "completed") H) as (_ & Hg & _).
  exact Hg.
Defined.

(** The defaults of a task created from a title and a priority. *)
Lemma create_applies_defaults_witness :
  Http.status (snd (createTask unparsed [] alice milkId buyMilk 1000)) = 201 /\
  exists t,
    snd (createTask unparsed [] alice milkId buyMilk 1000) =
      Http.ok 201 "할 일이 성공적으로 생성되었습니다." (OneTask t) /\
    Task.category t = "개인" /\ Task.description t = "".
Proof.
  split; [reflexivity|].
  destruct (create_applies_defaults unparsed [] alice milkId buyMilk 1000 eq_refl)
    as (t & Hr & _ & _ & _ & Hd & Hc & _).
  exists t. split; [exact Hr|]. split; [exact Hc|exact Hd].
Defined.

(** The registration of Bea next to ann. *)
Lemma register_stores_one_user_witness :
  Http.status
    (snd (register None keyedTag saltedHash asciiOnly [ann] "cccccccccccccccccccccccc" "salt"
            (Credentials (Some "Bea") (Some "Bea@X.com") (Some "secret2")) 5)) = 201 /\
  exists u,
    fst (register None keyedTag saltedHash asciiOnly [ann] "cccccccccccccccccccccccc" "salt"
           (Credentials (Some "Bea") (Some "Bea@X.com") (Some "secret2")) 5) = [ann; u] /\
    User.email u = "bea@x.com" /\ User.password u = "salt$secret2".
Proof.
  assert (H : Http.status
                (snd (register None keyedTag saltedHash asciiOnly [ann]
                        "cccccccccccccccccccccccc" "salt"
                        (Credentials (Some "Bea") (Some "Bea@X.com") (Some "secret2")) 5))
              = 201) by reflexivity.
  split; [exact H|].
  destruct (proj2 (register_stores_one_user None keyedTag saltedHash asciiOnly [ann]
                     "cccccccccccccccccccccccc" "salt"
                     (Credentials (Some "Bea") (Some "Bea@X.com") (Some "secret2")) 5) H)
    as (u & Hr & Hu & _).
  exists u. rewrite Hr, Hu. split; [reflexivity|]. split; reflexivity.
Defined.

(** The emails of ann and dan, after the registration of Bea and after a
    login of ann. *)
Lemma emails_stay_unique_witness :
  emailsUnique [ann; dan] /\
  emailsUnique
    (fst (register None keyedTag saltedHash asciiOnly [ann; dan] "cccccccccccccccccccccccc"
            "salt" (Credentials (Some "Bea") (Some "Bea@X.com") (Some "secret2")) 5)) /\
  emailsUnique
    (fst (login None keyedTag saltedCompare asciiOnly [ann; dan]
            (Credentials None (Some "A@x.com") (Some "secret1")) 5)).
Proof.
  assert (H : emailsUnique [ann; dan]).
  { unfold emailsUnique. simpl. constructor.
    - simpl. intros [E|[]]. discriminate.
    - constructor; [simpl; tauto|constructor]. }
  split; [exact H|].
  exact (emails_stay_unique None keyedTag saltedHash saltedCompare asciiOnly [ann; dan]
           "cccccccccccccccccccccccc" "salt"
           (Credentials (Some "Bea") (Some "Bea@X.com") (Some "secret2")) 5 H).
Defined.

(** The login of ann, her email written with a capital. *)
Lemma login_success_witness :
  Http.status
    (snd (login None keyedTag saltedCompare asciiOnly [ann; dan]
            (Credentials None (Some "A@x.com") (Some "secret1")) 5)) = 200 /\
  exists user json,
    In user [ann; dan] /\ User.email user = "a@x.com" /\ User.isActive user = true /\
    snd (login None keyedTag saltedCompare asciiOnly [ann; dan]
           (Credentials None (Some "A@x.com") (Some "secret1")) 5) =
      Http.ok 200 "로그인에 성공했습니다." (json, generateToken None keyedTag user 5).
Proof.
  assert (H : Http.status
                (snd (login None keyedTag saltedCompare asciiOnly [ann; dan]
                        (Credentials None (Some "A@x.com") (Some "secret1")) 5)) = 200)
    by reflexivity.
  split; [exact H|].
  destruct (login_success None keyedTag saltedCompare asciiOnly [ann; dan]
              (Credentials None (Some "A@x.com") (Some "secret1")) 5 H)
    as (user & json & Hin & He & Ha & _ & Hr & _).
  exists user, json.
  split; [exact Hin|]. split; [exact He|]. split; [exact Ha|exact Hr].
Defined.

(** Bea registers and then logs in. *)
Lemma registered_user_can_log_in_witness :
  saltedCompare "secret2" (saltedHash "secret2" "salt") = true /\
  Http.status
    (snd (register None keyedTag saltedHash asciiOnly [ann] "cccccccccccccccccccccccc" "salt"
            (Credentials (Some "Bea") (Some "Bea@X.com") (Some "secret2")) 5)) = 201 /\
  exists json token,
    snd (login None keyedTag saltedCompare asciiOnly
           (fst (register None keyedTag saltedHash asciiOnly [ann]
                   "cccccccccccccccccccccccc" "salt"
                   (Credentials (Some "Bea") (Some "Bea@X.com") (Some "secret2")) 5))
           (Credentials None (Some "Bea@X.com") (Some "secret2")) 9) =
      Http.ok 200 "로그인에 성공했습니다." (json, token) /\
    User.j_id json = "cccccccccccccccccccccccc".
Proof.
  assert (H1 : saltedCompare "secret2" (saltedHash "secret2" "salt") = true) by reflexivity.
  assert (H2 : Http.status
                 (snd (register None keyedTag saltedHash asciiOnly [ann]
                         "cccccccccccccccccccccccc" "salt"
                         (Credentials (Some "Bea") (Some "Bea@X.com") (Some "secret2")) 5))
               = 201) by reflexivity.
  split; [exact H1|]. split; [exact H2|].
  destruct (registered_user_can_log_in None keyedTag saltedHash saltedCompare asciiOnly [ann]
              "cccccccccccccccccccccccc" "salt" "Bea" "Bea@X.com" "secret2" 5 9 H1 H2)
    as (json & token & Hr & Hi & _).
  exists json, token. split; [exact Hr|exact Hi].
Defined.

(** dan, whose account is deactivated, with a token issued at time 0. *)
Lemma deactivated_user_keeps_access_witness :
  User.findById [ann; dan] (User._id dan) = Some dan /\ User.isActive dan = false /\
  5000 / 1000 < 0 / 1000 + sevenDays /\
  @authenticateToken None keyedTag taskData
    (Some (Bearer (generateToken None keyedTag dan 0))) 5000 =
    inl (Identity (User._id dan) (User.email dan)) /\
  me None keyedTag [ann; dan] (Some (Bearer (generateToken None keyedTag dan 0))) 5000 =
    Http.fail 401 "비활성화된 계정입니다.".
Proof.
  assert (H1 : User.findById [ann; dan] (User._id dan) = Some dan) by reflexivity.
  assert (H2 : User.isActive dan = false) by reflexivity.
  assert (H3 : 5000 / 1000 < 0 / 1000 + sevenDays) by (vm_compute; reflexivity).
  split; [exact H1|]. split; [exact H2|]. split; [exact H3|].
  exact (deactivated_user_keeps_access None keyedTag [ann; dan] dan 0 5000 H1 H2 H3).
Defined.

(** The handler of [DELETE /completed], run for alice, whose one task is
    completed. *)
Lemma deleteCompleted_clears_completed_witness :
  snd (deleteCompleted [milkDone] alice) =
    Http.ok 200 "완료된 할 일들이 성공적으로 삭제되었습니다." (DeletedCount 1) /\
  1 = Z.of_nat (List.length [milkDone])
      - Z.of_nat (List.length (fst (deleteCompleted [milkDone] alice))).
Proof.
  assert (H : snd (deleteCompleted [milkDone] alice) =
              Http.ok 200 "완료된 할 일들이 성공적으로 삭제되었습니다." (DeletedCount 1))
    by reflexivity.
  split; [exact H|].
  exact (proj1 (deleteCompleted_clears_completed [milkDone] alice 1 H)).
Defined.
